(** * Nurse-Patient-Ratio-Dashboard: the filter and aggregation core of
    [dashboard.py], embedded in Rocq.

    The script is a Streamlit page.  One run of it loads a CSV file, draws the
    sidebar controls, filters the table by date range and by staffing ratio,
    and then either reports that nothing is left or draws four metric cards and
    three charts.  The development below follows the script top to bottom:

    - numbers are IEEE binary64 values (NumPy's [float64]), taken as Rocq's
      primitive [float];
    - a [Timestamp] is a calendar day and a time of day, [.dt.date] keeps the
      day (a [datetime.date]);
    - a [DataFrame] is the list of its rows, in file order;
    - a run is a computation over the page drawn so far and the module-level
      variables bound so far, that may end with [st.stop()] or with an
      exception nobody caught. *)

From Stdlib Require Import ZArith List Bool Lia String Ascii Floats.
Import ListNotations.

Set Implicit Arguments.

(* ================================================================== *)
(** * Part I. The embedding *)
(* ================================================================== *)

(** ** binary64 numbers *)

Module Float64.

Local Open Scope float_scope.

(** Python's [a >= b], [a > b] on floats: false as soon as one side is NaN. *)
Definition geb (a b : float) : bool := b <=? a.
Definition gtb (a b : float) : bool := b <? a.

(** [a <= b] holds, as a proposition. *)
Definition le (a b : float) : Prop := (a <=? b) = true.

(** The conversion of a count to [float64]. *)
Definition of_nat (n : nat) : float := of_uint63 (Uint63.of_Z (Z.of_nat n)).

(** The number one as sign, mantissa and exponent: [2^52 * 2^-52]. *)
Definition SFone64 : spec_float := S754_finite false 4503599627370496 (-52).

(** [2^52]: from there on every binary64 number is an integer. *)
Definition toint : float := 4503599627370496.

(** C's [rint] in the default rounding mode (to nearest, ties to even), the
    way libm computes it: adding and subtracting [2^52] rounds the fraction
    away; the sign of a zero result is the sign of the argument. *)
Definition rint (x : float) : float :=
  if abs x <? toint then
    let y := if get_sign x then x - toint + toint else x + toint - toint in
    if y =? 0 then (if get_sign x then neg_zero else zero) else y
  else x.

(** NumPy's table of powers of ten, [10.0 ** decimals]. *)
Fixpoint power_of_ten (decimals : nat) : float :=
  match decimals with
  | O => 1
  | S d => power_of_ten d * 10
  end.

(** [round(x, decimals)] on a [numpy.float64], for [decimals >= 0]: NumPy
    scales, rounds to the nearest integer and scales back. *)
Definition round (x : float) (decimals : nat) : float :=
  rint (x * power_of_ten decimals) / power_of_ten decimals.

(** NumPy's pairwise summation keeps eight running sums. *)
Record acc8 : Type := mk8 { r0 : float; r1 : float; r2 : float; r3 : float;
                            r4 : float; r5 : float; r6 : float; r7 : float }.

(** The unrolled loop: as long as eight cells are left, each running sum
    takes one of them.  The answer is the running sums and the cells left
    over (fewer than eight). *)
Fixpoint unrolled (r : acc8) (a : list float) : acc8 * list float :=
  match a with
  | a0 :: a1 :: a2 :: a3 :: a4 :: a5 :: a6 :: a7 :: rest =>
      unrolled (mk8 (r0 r + a0) (r1 r + a1) (r2 r + a2) (r3 r + a3)
                    (r4 r + a4) (r5 r + a5) (r6 r + a6) (r7 r + a7)) rest
  | _ => (r, a)
  end.

(** A block of at most 128 cells: fewer than eight are added one after the
    other, starting from [-0.0]; otherwise the first eight cells start the
    running sums, the unrolled loop feeds them, they are added up as a
    balanced tree, and the cells left over are added one after the other. *)
Definition block_sum (a : list float) : float :=
  match a with
  | a0 :: a1 :: a2 :: a3 :: a4 :: a5 :: a6 :: a7 :: rest =>
      let '(r, tail) := unrolled (mk8 a0 a1 a2 a3 a4 a5 a6 a7) rest in
      fold_left add tail
        (((r0 r + r1 r) + (r2 r + r3 r)) + ((r4 r + r5 r) + (r6 r + r7 r)))
  | _ => fold_left add a neg_zero
  end.

(** [pairwise_sum]: a column of more than 128 cells is cut in two, the first
    part half the length rounded down to a multiple of eight, and the sums
    of the two parts are added.  [fuel] bounds the depth of the cuts; the
    length of the column is enough (see [pairwise_sum_fuel]). *)
Fixpoint pairwise_sum (fuel : nat) (a : list float) : float :=
  let n := List.length a in
  if (n <=? 128)%nat then block_sum a
  else
    match fuel with
    | O => block_sum a
    | S fuel' =>
        let n2 := (n / 2 - (n / 2) mod 8)%nat in
        pairwise_sum fuel' (firstn n2 a) + pairwise_sum fuel' (skipn n2 a)
    end.

(** [numpy.add.reduce] over a contiguous [float64] column (an integer column
    is summed as [float64] too): the pairwise sum of the column, added to
    the initial value 0. *)
Definition sum (xs : list float) : float :=
  0 + pairwise_sum (List.length xs) xs.

(** [Series.mean()] with pandas' default [skipna=True]: a NaN cell counts
    for nothing in the sum and is left out of the count; with no cell left
    the mean is NaN. *)
Definition mean (xs : list float) : float :=
  let count := List.length (filter (fun x => negb (is_nan x)) xs) in
  let the_sum := sum (map (fun x => if is_nan x then 0 else x) xs) in
  match count with
  | O => nan
  | S _ => the_sum / of_nat count
  end.

End Float64.

(** ** Calendar days and timestamps *)

(** A [datetime.date]. *)
Record date : Type := mkdate { year : Z; month : Z; day : Z }.

(** CPython orders dates by year, then month, then day. *)
Definition date_compare (a b : date) : comparison :=
  match (year a ?= year b)%Z with
  | Eq => match (month a ?= month b)%Z with
          | Eq => (day a ?= day b)%Z
          | c => c
          end
  | c => c
  end.

Definition date_leb (a b : date) : bool :=
  match date_compare a b with Gt => false | _ => true end.
Definition date_geb (a b : date) : bool := date_leb b a.
Definition date_gtb (a b : date) : bool :=
  match date_compare a b with Gt => true | _ => false end.

(** The order on calendar days, stated on its own. *)
Definition date_lt (a b : date) : Prop :=
  (year a < year b
   \/ (year a = year b
       /\ (month a < month b \/ (month a = month b /\ day a < day b))))%Z.
Definition date_le (a b : date) : Prop := date_lt a b \/ a = b.

(** A pandas [Timestamp]: the day, and the nanoseconds elapsed since
    midnight. *)
Record Timestamp : Type := mkts { ts_date : date; ts_time : Z }.

(** [Timestamp.date()] and [Series.dt.date]: the time of day is dropped. *)
Definition dt_date (t : Timestamp) : date := ts_date t.

Definition ts_leb (a b : Timestamp) : bool :=
  match date_compare (ts_date a) (ts_date b) with
  | Lt => true
  | Gt => false
  | Eq => (ts_time a <=? ts_time b)%Z
  end.

(** [Series.min()] and [Series.max()] of a datetime column; [None] is [NaT],
    the answer for an empty column. *)
Definition series_min (col : list Timestamp) : option Timestamp :=
  match col with
  | [] => None
  | t :: rest => Some (fold_left (fun m x => if ts_leb x m then x else m) rest t)
  end.
Definition series_max (col : list Timestamp) : option Timestamp :=
  match col with
  | [] => None
  | t :: rest => Some (fold_left (fun m x => if ts_leb m x then x else m) rest t)
  end.

(** ** The table *)

(** One row of [Final_Dashboard_Data_v3.csv] after loading; the fields are
    the columns the script reads ([D.O.A] is the date of admission). *)
Record Row : Type := mkRow {
  D_O_A : Timestamp;
  Patient_Count : float;
  Estimated_Nurse_Count : float;
  Patients_Per_Nurse : float;
  Occupancy_Rate : float
}.

Definition DataFrame : Type := list Row.

(** [df[col]]: a column, as the list of its cells. *)
Definition column (A : Type) (f : Row -> A) (df : DataFrame) : list A := map f df.

(** [df.loc[mask]] and [df[mask]]: the rows whose mask cell is true, in
    order. *)
Fixpoint loc (df : DataFrame) (mask : list bool) : DataFrame :=
  match df, mask with
  | r :: df', b :: mask' => if b then r :: loc df' mask' else loc df' mask'
  | _, _ => []
  end.

(** ** The filter (FILTER LOGIC in the script) *)

Section Filter.

Variable df : DataFrame.
Variables start_date end_date : date.
Variable min_ratio : float.

(** [(df['D.O.A'].dt.date >= start_date) & (df['D.O.A'].dt.date <= end_date)] *)
Definition mask : list bool :=
  map (fun d => date_geb d start_date && date_leb d end_date)
      (map dt_date (column D_O_A df)).

(** [df_filtered = df.loc[mask]]
    [df_filtered = df_filtered[df_filtered['Patients_Per_Nurse'] >= min_ratio]] *)
Definition df_filtered : DataFrame :=
  let df_filtered := loc df mask in
  loc df_filtered
      (map (fun x => Float64.geb x min_ratio)
           (column Patients_Per_Nurse df_filtered)).

End Filter.

(** The two selections taken in the other order: the ratio first, the date
    range on what is left. *)
Definition df_filtered_ratio_first
    (df : DataFrame) (start_date end_date : date) (min_ratio : float) : DataFrame :=
  let by_ratio :=
    loc df (map (fun x => Float64.geb x min_ratio) (column Patients_Per_Nurse df)) in
  loc by_ratio (mask by_ratio start_date end_date).

(** ** The metric cards (METRIC CARDS in the script) *)

Definition avg_patients (df_filtered : DataFrame) : float :=
  Float64.round (Float64.mean (column Patient_Count df_filtered)) 1.
Definition avg_nurses (df_filtered : DataFrame) : float :=
  Float64.round (Float64.mean (column Estimated_Nurse_Count df_filtered)) 1.
Definition avg_ratio (df_filtered : DataFrame) : float :=
  Float64.round (Float64.mean (column Patients_Per_Nurse df_filtered)) 2.
Definition risk_days (df_filtered : DataFrame) : nat :=
  List.length
    (loc df_filtered
         (map (fun x => Float64.gtb x 4%float) (column Patients_Per_Nurse df_filtered))).

Record Aggregates : Type := mkAggregates {
  agg_avg_patients : float;
  agg_avg_nurses : float;
  agg_avg_ratio : float;
  agg_risk_days : nat
}.

Definition aggregate (df_filtered : DataFrame) : Aggregates :=
  {| agg_avg_patients := avg_patients df_filtered;
     agg_avg_nurses := avg_nurses df_filtered;
     agg_avg_ratio := avg_ratio df_filtered;
     agg_risk_days := risk_days df_filtered |}.

(** ** Loading (LOAD DATA in the script) *)

(** The exceptions a run can meet. *)
Inductive exn : Type :=
| FileNotFoundError
| PermissionError
| ValueError
| OutOfBoundsDatetime
| StreamlitAPIException.

Module DateParser.

Local Open Scope Z_scope.

(** The fields of a string, cut at every [sep]. *)
Fixpoint split_on (sep : ascii) (s : string) : list string :=
  match s with
  | EmptyString => [EmptyString]
  | String c s' =>
      if Ascii.eqb c sep then EmptyString :: split_on sep s'
      else match split_on sep s' with
           | f :: fs => String c f :: fs
           | [] => [String c EmptyString]
           end
  end.

Definition digit (c : ascii) : option Z :=
  let n := Z.of_N (N_of_ascii c) in
  if (48 <=? n) && (n <=? 57) then Some (n - 48) else None.

Fixpoint digits (s : string) (acc : Z) : option Z :=
  match s with
  | EmptyString => Some acc
  | String c s' =>
      match digit c with
      | Some d => digits s' (10 * acc + d)
      | None => None
      end
  end.

(** A non-empty run of decimal digits, as a number. *)
Definition number (s : string) : option Z :=
  match s with
  | EmptyString => None
  | _ => digits s 0
  end.

Definition is_leap (y : Z) : bool :=
  ((y mod 4 =? 0) && negb (y mod 100 =? 0)) || (y mod 400 =? 0).

Definition days_in_month (y m : Z) : Z :=
  if m =? 2 then (if is_leap y then 29 else 28)
  else if (m =? 4) || (m =? 6) || (m =? 9) || (m =? 11) then 30
  else 31.

Definition valid_date (d : date) : bool :=
  (1 <=? month d) && (month d <=? 12)
  && (1 <=? day d) && (day d <=? days_in_month (year d) (month d)).

(** The midnights a nanosecond [Timestamp] can hold, 1677-09-22 to
    2262-04-11 (the resolution pandas 2 parses to). *)
Definition in_bounds (d : date) : bool :=
  date_leb (mkdate 1677 9 22) d && date_leb d (mkdate 2262 4 11).

(** Which of the two leading numbers is the day, the way dateutil resolves
    it: the first one when it cannot be a month, or when [dayfirst] is asked
    for and the second one can be a month; the second one otherwise. *)
Definition resolve_ymd (dayfirst : bool) (a b y : Z) : date :=
  if (12 <? a) || (dayfirst && (b <=? 12)) then mkdate y b a else mkdate y a b.

(** [pd.to_datetime(s, dayfirst=...)] on one cell holding a numeric date
    with slashes and a four-digit year, the layout of the file's [D.O.A]
    column; the result is the midnight of that day.  Other cells (an empty
    one, which pandas loads as [NaT]; one with a time of day; another
    layout) are outside this model: it answers [ValueError] for them, and
    the properties below that go through the loader are about files of the
    modelled layout. *)
Definition to_datetime (dayfirst : bool) (s : string) : exn + Timestamp :=
  match split_on "/" s with
  | [fa; fb; fy] =>
      match number fa, number fb, number fy with
      | Some a, Some b, Some y =>
          if negb (String.length fy =? 4)%nat then inl ValueError
          else
            let d := resolve_ymd dayfirst a b y in
            if negb (valid_date d) then inl ValueError
            else if negb (in_bounds d) then inl OutOfBoundsDatetime
            else inr (mkts d 0)
      | _, _, _ => inl ValueError
      end
  | _ => inl ValueError
  end.

(** The three numbers of a cell [a/b/yyyy]. *)
Definition fields (s : string) : option (Z * Z * Z) :=
  match split_on "/" s with
  | [fa; fb; fy] =>
      match number fa, number fb, number fy with
      | Some a, Some b, Some y =>
          if (String.length fy =? 4)%nat then Some (a, b, y) else None
      | _, _, _ => None
      end
  | _ => None
  end.

(** The order of day and month pandas infers from a cell, when the cell is a
    day in that order: [true] is [%d/%m/%Y], [false] is [%m/%d/%Y]. *)
Definition infer_order (dayfirst : bool) (s : string) : option bool :=
  match fields s with
  | Some (a, b, y) =>
      let day_first := (12 <? a) || (dayfirst && (b <=? 12)) in
      if valid_date (if day_first then mkdate y b a else mkdate y a b)
      then Some day_first else None
  | None => None
  end.

(** A cell read in a given order, and in no other. *)
Definition read_as (day_first : bool) (s : string) : exn + Timestamp :=
  match fields s with
  | Some (a, b, y) =>
      let d := if day_first then mkdate y b a else mkdate y a b in
      if negb (valid_date d) then inl ValueError
      else if negb (in_bounds d) then inl OutOfBoundsDatetime
      else inr (mkts d 0)
  | None => inl ValueError
  end.

End DateParser.

(** One row as [pd.read_csv] delivers it: the date still text, the numeric
    columns already numbers. *)
Record RawRow : Type := mkRawRow {
  raw_D_O_A : string;
  raw_Patient_Count : float;
  raw_Estimated_Nurse_Count : float;
  raw_Patients_Per_Nurse : float;
  raw_Occupancy_Rate : float
}.

(** What is on disk under the name [Final_Dashboard_Data_v3.csv]. *)
Inductive file_state : Type :=
| FileAbsent
| FileUnreadable
| FileContent (rows : list RawRow).

(** [pd.read_csv('Final_Dashboard_Data_v3.csv')]: opening a missing file
    raises [FileNotFoundError], opening one the process may not read raises
    [PermissionError]. *)
Definition read_csv (fs : file_state) : exn + list RawRow :=
  match fs with
  | FileAbsent => inl FileNotFoundError
  | FileUnreadable => inl PermissionError
  | FileContent rows => inr rows
  end.

(** Every cell of the date column read in one order; the first cell that is
    not a day in that order raises. *)
Fixpoint read_column (day_first : bool) (rows : list RawRow) : exn + DataFrame :=
  match rows with
  | [] => inr []
  | r :: rest =>
      match DateParser.read_as day_first (raw_D_O_A r) with
      | inl e => inl e
      | inr t =>
          match read_column day_first rest with
          | inl e => inl e
          | inr df =>
              inr (mkRow t (raw_Patient_Count r) (raw_Estimated_Nurse_Count r)
                         (raw_Patients_Per_Nurse r) (raw_Occupancy_Rate r) :: df)
          end
      end
  end.

(** [pd.to_datetime(df['D.O.A'], dayfirst=True)] over the column: pandas
    infers the order of day and month from the first cell and reads the
    whole column in that order.  As for one cell, the model covers cells of
    the layout [a/b/yyyy]; a column with an empty cell, a time of day or
    another layout is outside it (the model answers [ValueError] there,
    pandas may load such a column). *)
Definition parse_dates (rows : list RawRow) : exn + DataFrame :=
  match rows with
  | [] => inr []
  | r :: _ =>
      match DateParser.infer_order true (raw_D_O_A r) with
      | Some day_first => read_column day_first rows
      | None => inl ValueError
      end
  end.

Definition load_data (fs : file_state) : exn + DataFrame :=
  match read_csv fs with
  | inl e => inl e
  | inr rows => parse_dates rows
  end.

(** ** A run of the script *)

(** What a metric card shows: a rounded average, the ratio written
    [f"1:{avg_ratio}"], or a count. *)
Inductive card_value : Type :=
| card_float (x : float)
| card_one_to (x : float)
| card_int (n : nat).

Inductive figure : Type :=
| fig_main (x : list Timestamp) (patients nurses : list float)
| fig_hist (data : DataFrame)
| fig_scatter (data : DataFrame).

(** The elements a run sends to the page, one constructor per kind of
    Streamlit call in the script ([style_sheet] is the fixed CSS block,
    [expander] the footer with its fixed text). *)
Inductive element : Type :=
| set_page_config
| style_sheet
| markdown (body : string)
| title (body : string)
| subheader (body : string)
| caption (body : string)
| divider
| columns (n : nat)
| date_input_widget (label : string) (value min_value max_value : date)
| slider_widget (label : string) (min_value max_value value step : float)
| error (body : string)
| warning (body : string)
| warning_hiding_days (min_ratio : float)
| info (body : string)
| metric_card (label : string) (value : card_value) (suffix : string)
| plotly_chart (fig : figure)
| expander (label : string).

(** The values the script binds to module-level names. *)
Inductive value : Type :=
| VFrame (df : DataFrame)
| VMask (m : list bool)
| VDate (d : date)
| VNaT
| VFloat (x : float)
| VInt (n : nat).

(** The state of a run: the page, oldest element first, and the module
    namespace, newest binding first. *)
Record state : Type := mkstate {
  page : list element;
  globals : list (string * value)
}.

Definition initial_state : state := {| page := []; globals := [] |}.

Fixpoint lookup (name : string) (g : list (string * value)) : option value :=
  match g with
  | [] => None
  | (n, v) :: g' => if String.eqb n name then Some v else lookup name g'
  end.

(** How a run ends: it reaches the end of the script, [st.stop()] halts it,
    or an exception escapes. *)
Inductive outcome (A : Type) : Type :=
| Done (a : A)
| Stopped
| Raised (e : exn).
Arguments Stopped {A}.
Arguments Raised {A} e.

Definition M (A : Type) : Type := state -> outcome A * state.

Definition ret {A} (a : A) : M A := fun s => (Done a, s).
Definition bind {A B} (c : M A) (k : A -> M B) : M B :=
  fun s => match c s with
           | (Done a, s') => k a s'
           | (Stopped, s') => (Stopped, s')
           | (Raised e, s') => (Raised e, s')
           end.
Definition st_stop {A} : M A := fun s => (Stopped, s).
Definition raise {A} (e : exn) : M A := fun s => (Raised e, s).
Definition st (e : element) : M unit :=
  fun s => (Done tt, {| page := page s ++ [e]; globals := globals s |}).
Definition assign (name : string) (v : value) : M unit :=
  fun s => (Done tt, {| page := page s; globals := (name, v) :: globals s |}).

Declare Scope run_scope.
Delimit Scope run_scope with run.
Notation "x <- c ;; k" := (bind c (fun x => k))
  (at level 61, c at next level, right associativity) : run_scope.
Notation "c ;; k" := (bind c (fun _ => k))
  (at level 61, right associativity) : run_scope.
Local Open Scope run_scope.

(** What the user has set the three controls to; [None] for a control left
    alone. *)
Record session : Type := mksession {
  picked_start : option date;
  picked_end : option date;
  picked_ratio : option float
}.

(** What a date control answers: the day the user picked, which is one of
    the days from [min_value] to [max_value] the control offers, or else the
    default. *)
Definition date_answer (value min_value max_value : date) (picked : option date) : date :=
  match picked with
  | Some d => if date_leb min_value d && date_leb d max_value then d else value
  | None => value
  end.

(** [st.date_input(label, value, min_value=..., max_value=...)]; for each of
    the three days [None] is [NaT].  The call raises [ValueError] on [NaT];
    Streamlit refuses bounds in the wrong order and a default outside the
    bounds. *)
Definition date_input (label : string) (value min_value max_value : option date)
    (picked : option date) : M date :=
  match value, min_value, max_value with
  | Some value, Some min_value, Some max_value =>
      if date_gtb min_value max_value
         || negb (date_leb min_value value) || negb (date_leb value max_value)
      then raise StreamlitAPIException
      else
        st (date_input_widget label value min_value max_value) ;;
        ret (date_answer value min_value max_value picked)
  | _, _, _ => raise ValueError
  end.

(** What a slider answers, the same way. *)
Definition slider_answer (min_value max_value value : float) (picked : option float)
    : float :=
  match picked with
  | Some x => if (min_value <=? x)%float && (x <=? max_value)%float then x else value
  | None => value
  end.

(** [st.slider(label, min_value, max_value, value, step)] *)
Definition slider (label : string) (min_value max_value value step : float)
    (picked : option float) : M float :=
  if negb (min_value <=? value)%float || negb (value <=? max_value)%float
  then raise StreamlitAPIException
  else
    st (slider_widget label min_value max_value value step) ;;
    ret (slider_answer min_value max_value value picked).

(** [.date()] of a column's minimum or maximum: the day of the timestamp;
    on [NaT], the answer for an empty column, it is [NaT] again. *)
Definition date_of (t : option Timestamp) : option date :=
  match t with
  | Some t => Some (dt_date t)
  | None => None
  end.

(** A day or [NaT], as a value of the namespace. *)
Definition date_value (d : option date) : value :=
  match d with
  | Some d => VDate d
  | None => VNaT
  end.

(** Sections 1 to 3 of the script: page set-up, then
    [try: df = load_data()  except FileNotFoundError: st.error(...); st.stop()]. *)
Definition load_stage (fs : file_state) : M DataFrame :=
  st set_page_config ;;
  st style_sheet ;;
  match load_data fs with
  | inr df => assign "df" (VFrame df) ;; ret df
  | inl FileNotFoundError =>
      st (error "⚠️ Error: 'Final_Dashboard_Data_v3.csv' not found.") ;;
      st_stop
  | inl e => raise e
  end.

(** Section 4: the sidebar controls.  The answer is the triple
    [(start_date, end_date, min_ratio)] the rest of the script reads. *)
Definition sidebar (df : DataFrame) (ui : session) : M (date * date * float) :=
  st (title "🏥 Control Panel") ;;
  st (markdown "Use these tools to filter the dashboard views.") ;;
  st divider ;;
  st (subheader "📅 Date Range") ;;
  let min_dt := date_of (series_min (column D_O_A df)) in
  assign "min_dt" (date_value min_dt) ;;
  let max_dt := date_of (series_max (column D_O_A df)) in
  assign "max_dt" (date_value max_dt) ;;
  st (columns 2) ;;
  start_date <- date_input "Start" min_dt min_dt max_dt (picked_start ui) ;;
  assign "start_date" (VDate start_date) ;;
  end_date <- date_input "End" max_dt min_dt max_dt (picked_end ui) ;;
  assign "end_date" (VDate end_date) ;;
  (if date_gtb start_date end_date
   then st (error "Start Date cannot be after End Date.") ;; st_stop
   else ret tt) ;;
  st divider ;;
  st (subheader "⚠️ Risk Filter") ;;
  st (caption "Filter out 'safe' days to focus on overcrowding.") ;;
  (* the step of the slider is 0.1, the binary64 number nearest to it *)
  min_ratio <- slider "Show only days with Ratio > X"
                      1 5 1 0x1.999999999999ap-4 (picked_ratio ui) ;;
  assign "min_ratio" (VFloat min_ratio) ;;
  (if Float64.geb min_ratio 4 then st (error "Showing only CRITICAL days.")
   else if Float64.gtb min_ratio 1 then st (warning_hiding_days min_ratio)
   else st (info "Showing ALL data.")) ;;
  ret (start_date, end_date, min_ratio).

(** [card(col, label, value, suffix)] *)
Definition card (label : string) (value : card_value) (suffix : string) : M unit :=
  st (metric_card label value suffix).

(** [px.scatter(df_filtered, ..., size="Patient_Count", ...)]: Plotly takes
    the marker sizes from the column and refuses a size that is not a number
    at least zero, so a NaN or a negative patient count raises
    [ValueError]. *)
Definition px_scatter (df_filtered : DataFrame) : M figure :=
  if forallb (fun x => (0 <=? x)%float) (column Patient_Count df_filtered)
  then ret (fig_scatter df_filtered)
  else raise ValueError.

(** FILTER LOGIC and sections 5 to 9: the filter, the header, the empty-view
    guard, the metric cards, the charts and the footer. *)
Definition main (df : DataFrame) (start_date end_date : date) (min_ratio : float)
    : M unit :=
  assign "mask" (VMask (mask df start_date end_date)) ;;
  assign "df_filtered" (VFrame (loc df (mask df start_date end_date))) ;;
  let df_filtered := df_filtered df start_date end_date min_ratio in
  assign "df_filtered" (VFrame df_filtered) ;;
  st (markdown "# Nurse-to-Patient Ratio Monitor") ;;
  st (markdown "### *Real-time staffing visualization against patient influx*") ;;
  st (markdown "---") ;;
  (if (List.length df_filtered =? 0)%nat
   then st (warning "No data found for these filters! Try lowering the Risk Filter.") ;;
        st_stop
   else ret tt) ;;
  assign "avg_patients" (VFloat (avg_patients df_filtered)) ;;
  assign "avg_nurses" (VFloat (avg_nurses df_filtered)) ;;
  assign "avg_ratio" (VFloat (avg_ratio df_filtered)) ;;
  assign "risk_days" (VInt (risk_days df_filtered)) ;;
  st (columns 4) ;;
  card "Avg Daily Patients" (card_float (avg_patients df_filtered)) "" ;;
  card "Avg Nurse Staffing" (card_float (avg_nurses df_filtered)) "" ;;
  card "Nurse-to-Patient Ratio" (card_one_to (avg_ratio df_filtered)) "" ;;
  card "High Risk Days" (card_int (risk_days df_filtered)) " Days" ;;
  st (markdown "##") ;;
  st (subheader "📈 Patient Influx vs. Nurse Supply") ;;
  st (plotly_chart (fig_main (column D_O_A df_filtered)
                             (column Patient_Count df_filtered)
                             (column Estimated_Nurse_Count df_filtered))) ;;
  st (columns 2) ;;
  st (subheader "📋 Ratio Frequency") ;;
  st (plotly_chart (fig_hist df_filtered)) ;;
  st (subheader "🌡️ Occupancy Heatmap") ;;
  fig_scatter <- px_scatter df_filtered ;;
  st (plotly_chart fig_scatter) ;;
  st (markdown "---") ;;
  st (expander "📝 Data Source & Methodology Note (Click to Expand)").

(** The whole script, top to bottom. *)
Definition script (fs : file_state) (ui : session) : M unit :=
  df <- load_stage fs ;;
  params <- sidebar df ui ;;
  let '(start_date, end_date, min_ratio) := params in
  main df start_date end_date min_ratio.

(** One run, from an empty page and an empty namespace.  ([st.cache_data]
    only spares later runs the reading of the file.) *)
Definition run (fs : file_state) (ui : session) : outcome unit * state :=
  script fs ui initial_state.

(** The elements that show a result: a metric card or a chart. *)
Definition is_result (e : element) : bool :=
  match e with
  | metric_card _ _ _ | plotly_chart _ => true
  | _ => false
  end.

(** The messages of the page: [st.error], [st.warning], [st.info]. *)
Definition is_message (e : element) : bool :=
  match e with
  | error _ | warning _ | warning_hiding_days _ | info _ => true
  | _ => false
  end.

(** ** The specification's vocabulary *)

(** [view_of P df v]: [v] is the subsequence of [df], in the order of [df],
    made of exactly the rows that satisfy [P]. *)
Inductive view_of (P : Row -> Prop) : DataFrame -> DataFrame -> Prop :=
| view_nil : view_of P [] []
| view_keep r df v : P r -> view_of P df v -> view_of P (r :: df) (r :: v)
| view_drop r df v : ~ P r -> view_of P df v -> view_of P (r :: df) v.

(** The day a record belongs to, whatever its time of day. *)
Definition record_date (r : Row) : date := ts_date (D_O_A r).

(** [start_date <= record.date <= end_date AND patients_per_nurse >= min_ratio] *)
Definition in_view (start_date end_date : date) (min_ratio : float) (r : Row) : Prop :=
  date_le start_date (record_date r)
  /\ date_le (record_date r) end_date
  /\ Float64.le min_ratio (Patients_Per_Nurse r).

(** The number of elements of a list that pass a test. *)
Fixpoint count (A : Type) (p : A -> bool) (l : list A) : nat :=
  match l with
  | [] => 0
  | x :: l' => if p x then S (count p l') else count p l'
  end.

(** The earliest and the latest day present in a table. *)
Definition earliest_day (df : DataFrame) (d : date) : Prop :=
  (exists r, In r df /\ record_date r = d)
  /\ forall r, In r df -> date_le d (record_date r).
Definition latest_day (df : DataFrame) (d : date) : Prop :=
  (exists r, In r df /\ record_date r = d)
  /\ forall r, In r df -> date_le (record_date r) d.

(** The two masks of the filter, read row by row. *)
Definition in_range (start_date end_date : date) (r : Row) : bool :=
  date_geb (dt_date (D_O_A r)) start_date && date_leb (dt_date (D_O_A r)) end_date.
Definition at_least (min_ratio : float) (r : Row) : bool :=
  Float64.geb (Patients_Per_Nurse r) min_ratio.

(** A day written [DD/MM/YYYY], the layout of the file's date column. *)
Module DateText.

Local Open Scope Z_scope.

Definition digit_char (k : Z) : ascii := ascii_of_N (Z.to_N (48 + k)).

Definition two_digits (n : Z) : string :=
  String (digit_char (n / 10)) (String (digit_char (n mod 10)) EmptyString).

Definition four_digits (n : Z) : string :=
  (two_digits (n / 100) ++ two_digits (n mod 100))%string.

Definition ddmmyyyy (d : date) : string :=
  (two_digits (day d) ++ "/" ++ two_digits (month d) ++ "/" ++ four_digits (year d))%string.

End DateText.

(** The row of the file a loaded row comes from, when the file writes its
    day as [DD/MM/YYYY]. *)
Definition csv_row (r : Row) : RawRow :=
  {| raw_D_O_A := DateText.ddmmyyyy (record_date r);
     raw_Patient_Count := Patient_Count r;
     raw_Estimated_Nurse_Count := Estimated_Nurse_Count r;
     raw_Patients_Per_Nurse := Patients_Per_Nurse r;
     raw_Occupancy_Rate := Occupancy_Rate r |}.

(** A row the loader can produce from such a file: a real calendar day a
    [Timestamp] can hold, at midnight. *)
Definition loadable (r : Row) : Prop :=
  DateParser.valid_date (record_date r) = true
  /\ DateParser.in_bounds (record_date r) = true
  /\ ts_time (D_O_A r) = 0%Z.

(** ** Sample tables *)

Definition midnight (y m d : Z) : Timestamp := mkts (mkdate y m d) 0.

(** Two days: 50 patients for 10 nurses, then 40 patients for 20 nurses. *)
Definition two_days : DataFrame :=
  [ mkRow (midnight 2024 1 1) 50 10 5 80;
    mkRow (midnight 2024 1 2) 40 20 2 64 ].

(** One day whose ratio, 69 patients for 16 nurses, has four decimals. *)
Definition one_day : Row := mkRow (midnight 2024 1 1) 69 16 4.3125 75.

(** Eight days, 38, 30, 17, 15, 20, 31, 22 and 21 patients for 10 nurses:
    the ratios are the binary64 numbers nearest to 3.8, 3.0, 1.7, 1.5, 2.0,
    3.1, 2.2 and 2.1. *)
Definition eight_days : DataFrame :=
  [ mkRow (midnight 2024 2 1) 38 10 0x1.e666666666666p+1 80;
    mkRow (midnight 2024 2 2) 30 10 3 72;
    mkRow (midnight 2024 2 3) 17 10 0x1.b333333333333p+0 50;
    mkRow (midnight 2024 2 4) 15 10 1.5 48;
    mkRow (midnight 2024 2 5) 20 10 2 55;
    mkRow (midnight 2024 2 6) 31 10 0x1.8cccccccccccdp+1 74;
    mkRow (midnight 2024 2 7) 22 10 0x1.199999999999ap+1 60;
    mkRow (midnight 2024 2 8) 21 10 0x1.0cccccccccccdp+1 58 ].

(** One day entered with a negative patient count. *)
Definition minus_one_day : Row := mkRow (midnight 2024 1 1) (-1) 10 2 75.

(** Two days whose ratios stay at or below 4.2 (written here as the binary64
    number nearest to it). *)
Definition calm_days : DataFrame :=
  [ mkRow (midnight 2024 3 1) 35 10 3.5 70;
    mkRow (midnight 2024 3 2) 42 10 0x1.0cccccccccccdp+2 78 ].

(** The file a table was loaded from, and three states of the controls:
    untouched, the two dates picked in the wrong order, the slider at 5.0. *)
Definition file_of (df : DataFrame) : file_state := FileContent (map csv_row df).
Definition untouched : session :=
  {| picked_start := None; picked_end := None; picked_ratio := None |}.
Definition dates_swapped : session :=
  {| picked_start := Some (mkdate 2024 1 2); picked_end := Some (mkdate 2024 1 1);
     picked_ratio := None |}.
Definition slider_at_five : session :=
  {| picked_start := None; picked_end := None; picked_ratio := Some 5%float |}.

(* ================================================================== *)
(** * Part II. Properties *)
(* ================================================================== *)

(** ** Calendar order *)

Section DateOrder.

Local Open Scope Z_scope.

Lemma date_eq_fields (a b : date) :
  year a = year b -> month a = month b -> day a = day b -> a = b.
Proof. destruct a, b; cbn; intros; subst; reflexivity. Qed.

Lemma date_compare_Eq a b : date_compare a b = Eq <-> a = b.
Proof.
  unfold date_compare. split.
  - destruct (Z.compare_spec (year a) (year b)); try discriminate.
    destruct (Z.compare_spec (month a) (month b)); try discriminate.
    destruct (Z.compare_spec (day a) (day b)); try discriminate.
    intros _. now apply date_eq_fields.
  - intros ->. now rewrite !Z.compare_refl.
Qed.

Lemma date_compare_Lt a b : date_compare a b = Lt <-> date_lt a b.
Proof.
  unfold date_compare, date_lt.
  destruct (Z.compare_spec (year a) (year b));
    destruct (Z.compare_spec (month a) (month b));
    destruct (Z.compare_spec (day a) (day b));
    split; intros; try discriminate; try reflexivity; try lia.
Qed.

Lemma date_compare_antisym a b : date_compare b a = CompOpp (date_compare a b).
Proof.
  unfold date_compare.
  rewrite (Z.compare_antisym (year a)), (Z.compare_antisym (month a)),
    (Z.compare_antisym (day a)).
  destruct (year a ?= year b), (month a ?= month b), (day a ?= day b); reflexivity.
Qed.

Lemma date_leb_le a b : date_leb a b = true <-> date_le a b.
Proof.
  unfold date_leb, date_le.
  rewrite <- date_compare_Lt, <- date_compare_Eq.
  destruct (date_compare a b); intuition discriminate.
Qed.

Lemma date_geb_le a b : date_geb a b = true <-> date_le b a.
Proof. apply date_leb_le. Qed.

Lemma date_gtb_lt a b : date_gtb a b = true <-> date_lt b a.
Proof.
  unfold date_gtb. rewrite <- date_compare_Lt, (date_compare_antisym a b).
  destruct (date_compare a b); cbn; intuition discriminate.
Qed.

Lemma date_gtb_leb a b : date_gtb a b = negb (date_leb a b).
Proof. unfold date_gtb, date_leb. now destruct (date_compare a b). Qed.

Lemma date_le_refl a : date_le a a.
Proof. now right. Qed.

Lemma date_lt_trans a b c : date_lt a b -> date_lt b c -> date_lt a c.
Proof. unfold date_lt. lia. Qed.

Lemma date_le_trans a b c : date_le a b -> date_le b c -> date_le a c.
Proof.
  intros [H1 | ->] [H2 | ->]; try (now left); try (now right).
  left. eapply date_lt_trans; eassumption.
Qed.

Lemma date_le_total a b : date_le a b \/ date_le b a.
Proof.
  rewrite <- !date_leb_le. unfold date_leb.
  rewrite (date_compare_antisym a b). destruct (date_compare a b); cbn; auto.
Qed.

End DateOrder.

(** ** binary64 comparison and division *)

Module Float64Facts.

Local Open Scope Z_scope.

(** Rounding to an integer: ties go to the even neighbour, a zero keeps the
    sign of the argument. *)
Example rint_ties_to_even :
  Float64.rint 0.5 = 0%float /\ Float64.rint 1.5 = 2%float
  /\ Float64.rint 2.5 = 2%float /\ Float64.rint (-2.5) = (-2)%float
  /\ Float64.rint (-0.25) = neg_zero /\ Float64.rint 431.25 = 431%float.
Proof. repeat split; reflexivity. Qed.

Example round_examples :
  Float64.round 45 1 = 45%float /\ Float64.round 3.5 2 = 3.5%float
  /\ Float64.round 2.5 0 = 2%float /\ (Float64.round 4.3125 2 <? 4.3125)%float = true.
Proof. repeat split; reflexivity. Qed.

(** The order of binary64 numbers is transitive (NaN is below and above
    nothing). *)
Lemma SFleb_trans a b c :
  SFleb a b = true -> SFleb b c = true -> SFleb a c = true.
Proof.
  unfold SFleb.
  destruct a as [sa|sa| |sa ma ea], b as [sb|sb| |sb mb eb], c as [sc|sc| |sc mc ec];
    cbn; try discriminate; try reflexivity;
    repeat match goal with s : bool |- _ => destruct s end;
    cbn; try discriminate; try reflexivity;
    change (Pos.compare_cont Eq) with Pos.compare;
    repeat match goal with
           | |- context [Z.compare ?x ?y] => destruct (Z.compare_spec x y)
           | |- context [Pos.compare ?x ?y] => destruct (Pos.compare_spec x y)
           end;
    cbn; try discriminate; try reflexivity; intros _ _; exfalso; lia.
Qed.

Lemma leb_trans (x y z : float) :
  (x <=? y)%float = true -> (y <=? z)%float = true -> (x <=? z)%float = true.
Proof. rewrite !leb_spec. apply SFleb_trans. Qed.

Lemma le_trans x y z : Float64.le x y -> Float64.le y z -> Float64.le x z.
Proof. apply leb_trans. Qed.

(** Every NaN is the one NaN. *)
Lemma is_nan_eq (x : float) : is_nan x = true -> x = nan.
Proof.
  intros H. apply Prim2SF_inj.
  unfold Prim2SF at 1. rewrite H. reflexivity.
Qed.

Lemma div_eucl_exact q b : 0 < b -> Z.div_eucl (q * b) b = (q, 0).
Proof.
  intros Hb.
  assert (E : Z.div_eucl (q * b) b = ((q * b) / b, (q * b) mod b)).
  { unfold Z.div, Z.modulo. now destruct (Z.div_eucl (q * b) b). }
  rewrite E, Z.div_mul, Z.mod_mul by lia. reflexivity.
Qed.

(** Dividing a normal number above the lowest exponent by one: the quotient
    carries one more bit, one exponent lower. *)
Lemma SFdiv_core_one_normal m e :
  -1074 < e -> Z.pos (digits2_pos m) = 53 ->
  SFdiv_core_binary prec emax (Z.pos m) e 4503599627370496 (-52)
  = (Z.pos m~0, e - 1, loc_Exact).
Proof.
  intros He Hd. unfold SFdiv_core_binary.
  cbn [Zdigits2]. rewrite Hd.
  change (Z.pos (digits2_pos 4503599627370496)) with 53.
  unfold fexp, SpecFloat.emin, prec, emax.
  replace (Z.min _ _) with (e - 1) by lia.
  replace (e - -52 - (e - 1)) with 53 by lia.
  rewrite Z.shiftl_mul_pow2 by lia.
  replace (Z.pos m * 2 ^ 53) with (Z.pos m~0 * 4503599627370496)
    by (change (2 ^ 53) with 9007199254740992; lia).
  rewrite div_eucl_exact by lia. reflexivity.
Qed.

(** At the lowest exponent (the subnormal numbers and the smallest normal
    ones) the quotient is the mantissa itself. *)
Lemma SFdiv_core_one_emin m e :
  e = -1074 -> Z.pos (digits2_pos m) <= 53 ->
  SFdiv_core_binary prec emax (Z.pos m) e 4503599627370496 (-52)
  = (Z.pos m, e, loc_Exact).
Proof.
  intros He Hd. unfold SFdiv_core_binary.
  cbn [Zdigits2].
  change (Z.pos (digits2_pos 4503599627370496)) with 53.
  unfold fexp, SpecFloat.emin, prec, emax.
  replace (Z.min _ _) with e by lia.
  replace (e - -52 - e) with 52 by lia.
  rewrite Z.shiftl_mul_pow2 by lia.
  change (2 ^ 52) with 4503599627370496.
  rewrite div_eucl_exact by lia. reflexivity.
Qed.

Lemma SFdiv_one x : valid_binary x = true -> SF64div x Float64.SFone64 = x.
Proof.
  destruct x as [s|s| |s m e]; cbn; try (destruct s; reflexivity); try reflexivity.
  unfold bounded, canonical_mantissa, fexp, SpecFloat.emin, prec, emax.
  rewrite andb_true_iff, Z.eqb_eq, Z.leb_le. intros [Hc Hb].
  unfold SF64div, SFdiv, Float64.SFone64.
  destruct (Z.eq_dec e (-1074)) as [He|He].
  - rewrite SFdiv_core_one_emin by lia.
    unfold binary_round_aux, shr_fexp, fexp, SpecFloat.emin, prec, emax.
    cbn [Zdigits2 shr_record_of_loc].
    replace (Z.max (Z.pos (digits2_pos m) + e - 53) (3 - 1024 - 53) - e) with 0 by lia.
    cbn [shr shr_m loc_of_shr_record round_nearest_even Zdigits2].
    replace (Z.max (Z.pos (digits2_pos m) + e - 53) (3 - 1024 - 53) - e) with 0 by lia.
    cbn [shr shr_m].
    replace (e <=? 1024 - 53) with true by (symmetry; apply Z.leb_le; lia).
    now rewrite xorb_false_r.
  - rewrite SFdiv_core_one_normal by lia.
    unfold binary_round_aux, shr_fexp, fexp, SpecFloat.emin, prec, emax.
    cbn [Zdigits2 shr_record_of_loc digits2_pos].
    rewrite Pos2Z.inj_succ.
    replace (Z.max (Z.succ (Z.pos (digits2_pos m)) + (e - 1) - 53) (3 - 1024 - 53)
             - (e - 1)) with 1 by lia.
    cbn [shr iter_pos shr_1 orb shr_m loc_of_shr_record round_nearest_even Zdigits2].
    replace (e - 1 + 1) with e by lia.
    replace (Z.max (Z.pos (digits2_pos m) + e - 53) (3 - 1024 - 53) - e) with 0 by lia.
    cbn [shr shr_m].
    replace (e <=? 1024 - 53) with true by (symmetry; apply Z.leb_le; lia).
    now rewrite xorb_false_r.
Qed.

(** Division by one is exact, for every binary64 number. *)
Lemma div_one (x : float) : (x / 1)%float = x.
Proof.
  apply Prim2SF_inj. rewrite div_spec.
  change (Prim2SF 1) with Float64.SFone64.
  apply SFdiv_one, Prim2SF_valid.
Qed.

(** The cuts of [pairwise_sum] never run out of fuel: any two amounts of
    fuel that are at least the length of the column give the same sum. *)
Lemma pairwise_sum_fuel (f1 f2 : nat) (a : list float) :
  (List.length a <= f1)%nat -> (List.length a <= f2)%nat ->
  Float64.pairwise_sum f1 a = Float64.pairwise_sum f2 a.
Proof.
  revert f2 a. induction f1 as [|f1 IH]; intros f2 a H1 H2.
  - destruct a; [|cbn in H1; lia]. now destruct f2.
  - destruct (List.length a <=? 128)%nat eqn:E.
    + destruct f2; cbn [Float64.pairwise_sum]; now rewrite E.
    + apply Nat.leb_gt in E.
      destruct f2 as [|f2]; [lia|].
      cbn [Float64.pairwise_sum].
      replace (List.length a <=? 128)%nat with false
        by (symmetry; apply Nat.leb_gt; exact E).
      set (n := List.length a) in *.
      pose proof (Nat.div_mod_eq n 2) as Hq.
      pose proof (Nat.mod_upper_bound n 2 ltac:(lia)) as Hr.
      pose proof (Nat.mod_upper_bound (n / 2) 8 ltac:(lia)) as Hr8.
      pose proof (Nat.div_mod_eq (n / 2) 8) as Hq8.
      f_equal; apply IH;
        rewrite ?length_firstn, ?length_skipn; fold n; lia.
Qed.

(** Adding to [-0.0] changes nothing. *)
Lemma neg_zero_add (x : float) : (neg_zero + x)%float = x.
Proof.
  apply Prim2SF_inj. rewrite add_spec.
  change (Prim2SF neg_zero) with (S754_zero true).
  unfold SF64add, SFadd. destruct (Prim2SF x) as [[]|[]| |]; reflexivity.
Qed.

(** Adding to [0.0] changes nothing, except that [-0.0] becomes [0.0]. *)
Lemma zero_add (x : float) :
  (0 + x)%float = x \/ (x = neg_zero /\ (0 + x)%float = 0%float).
Proof.
  destruct (Prim2SF x) as [[]|[]| |sx mx ex] eqn:E;
    try (left; apply Prim2SF_inj; rewrite add_spec, E; reflexivity).
  right. assert (Hx : x = neg_zero) by (apply Prim2SF_inj; rewrite E; reflexivity).
  split; [exact Hx|]. rewrite Hx. reflexivity.
Qed.

(** The mean of a single cell is the cell added to the initial 0.0 of the
    sum: the cell itself, a negative zero apart. *)
Lemma mean_singleton (x : float) : Float64.mean [x] = (0 + x)%float.
Proof.
  unfold Float64.mean. cbn [filter map].
  destruct (is_nan x) eqn:E; cbn [negb List.length].
  - rewrite (is_nan_eq _ E). reflexivity.
  - unfold Float64.sum. cbn [List.length Float64.pairwise_sum Nat.leb
                               Float64.block_sum fold_left].
    rewrite neg_zero_add. change (Float64.of_nat 1) with 1%float. apply div_one.
Qed.

(** A column without a number has no mean. *)
Lemma mean_of_no_number (xs : list float) :
  (forall x, In x xs -> is_nan x = true) -> Float64.mean xs = nan.
Proof.
  intros H. unfold Float64.mean.
  replace (filter (fun x => negb (is_nan x)) xs) with (@nil float); [reflexivity|].
  induction xs as [|x xs IH]; cbn; [reflexivity|].
  rewrite (H x) by now left. cbn. apply IH. intros y Hy. apply H. now right.
Qed.

End Float64Facts.

(** ** The filter *)

Section FilterFacts.

Lemma loc_map (p : Row -> bool) (df : DataFrame) :
  loc df (map p df) = filter p df.
Proof.
  induction df as [|r df IH]; cbn; [reflexivity|].
  rewrite IH. reflexivity.
Qed.

Lemma mask_map df s e : mask df s e = map (in_range s e) df.
Proof. unfold mask, column. now rewrite !map_map. Qed.

Lemma df_filtered_filter df s e m :
  df_filtered df s e m = filter (at_least m) (filter (in_range s e) df).
Proof.
  unfold df_filtered, column. rewrite mask_map, loc_map, map_map.
  apply (loc_map (at_least m)).
Qed.

Lemma df_filtered_ratio_first_filter df s e m :
  df_filtered_ratio_first df s e m = filter (in_range s e) (filter (at_least m) df).
Proof.
  unfold df_filtered_ratio_first, column. rewrite map_map.
  rewrite (loc_map (at_least m)), mask_map. apply loc_map.
Qed.

Lemma filter_filter_andb (A : Type) (p q : A -> bool) (l : list A) :
  filter q (filter p l) = filter (fun x => p x && q x) l.
Proof.
  induction l as [|x l IH]; cbn; [reflexivity|].
  destruct (p x); cbn; [destruct (q x)|]; now rewrite IH.
Qed.

Lemma filter_comm (A : Type) (p q : A -> bool) (l : list A) :
  filter q (filter p l) = filter p (filter q l).
Proof.
  rewrite !filter_filter_andb. apply filter_ext. intros x. apply andb_comm.
Qed.

Lemma in_view_reflect s e m r :
  in_range s e r && at_least m r = true <-> in_view s e m r.
Proof.
  unfold in_range, at_least, in_view, record_date, dt_date, Float64.geb, Float64.le.
  rewrite !andb_true_iff, date_geb_le, date_leb_le. tauto.
Qed.

Lemma view_of_filter (P : Row -> Prop) (p : Row -> bool) :
  (forall r, p r = true <-> P r) ->
  forall df, view_of P df (filter p df).
Proof.
  intros Hp. induction df as [|r df IH]; cbn.
  - constructor.
  - destruct (p r) eqn:E.
    + apply view_keep; [now apply Hp | exact IH].
    + apply view_drop; [|exact IH]. intros HP. apply Hp in HP. congruence.
Qed.

(** A view is determined by the table and the predicate. *)
Lemma view_of_unique (P : Row -> Prop) df v1 v2 :
  view_of P df v1 -> view_of P df v2 -> v1 = v2.
Proof.
  intros H1. revert v2.
  induction H1 as [|r df v HP _ IH|r df v HP _ IH]; intros v2 H2;
    inversion H2; subst; try contradiction; try reflexivity.
  - f_equal. now apply IH.
  - now apply IH.
Qed.

Lemma view_of_In (P : Row -> Prop) df v :
  view_of P df v -> forall r, In r v <-> In r df /\ P r.
Proof.
  induction 1 as [|r0 df v HP _ IH|r0 df v HP _ IH]; intros r; cbn.
  - tauto.
  - rewrite IH. split; [intros [->|[? ?]]; auto | intros [[->|?] ?]; auto].
  - rewrite IH. split; [intros [? ?]; auto | intros [[->|?] ?]; [contradiction|auto]].
Qed.

Lemma filter_length_le (A : Type) (p q : A -> bool) (l : list A) :
  (forall x, p x = true -> q x = true) ->
  List.length (filter p l) <= List.length (filter q l).
Proof.
  intros Hpq. induction l as [|x l IH]; cbn; [lia|].
  destruct (p x) eqn:E.
  - rewrite (Hpq x E). cbn. lia.
  - destruct (q x); cbn; lia.
Qed.

Lemma df_filtered_view df s e m : view_of (in_view s e m) df (df_filtered df s e m).
Proof.
  rewrite df_filtered_filter, filter_filter_andb.
  apply view_of_filter. intros r. apply in_view_reflect.
Qed.

End FilterFacts.

(** C1. For every table and every [start_date <= end_date] and [min_ratio],
    the filtered view is exactly the subsequence of the table, in the table's
    order, of the rows whose day (the time of day dropped) lies between
    [start_date] and [end_date], both included, and whose patients-per-nurse
    ratio is at least [min_ratio]. *)
Theorem filtered_view_is_the_selected_subsequence
    (df : DataFrame) (start_date end_date : date) (min_ratio : float) :
  date_le start_date end_date ->
  view_of (in_view start_date end_date min_ratio) df
          (df_filtered df start_date end_date min_ratio).
Proof. intros _. apply df_filtered_view. Qed.

Lemma filtered_view_is_the_selected_subsequence_witness :
  view_of (in_view (mkdate 2024 1 1) (mkdate 2024 1 2) 1) two_days
          (df_filtered two_days (mkdate 2024 1 1) (mkdate 2024 1 2) 1).
Proof.
  apply filtered_view_is_the_selected_subsequence.
  apply date_leb_le. reflexivity.
Defined.

(** C6. Taking the ratio selection before the date selection gives the same
    rows as taking the date selection first: the same list, hence the same
    set of records. *)
Theorem filter_order_independent
    (df : DataFrame) (start_date end_date : date) (min_ratio : float) :
  df_filtered_ratio_first df start_date end_date min_ratio
  = df_filtered df start_date end_date min_ratio
  /\ forall r,
       In r (df_filtered_ratio_first df start_date end_date min_ratio)
       <-> In r (df_filtered df start_date end_date min_ratio).
Proof.
  assert (E : df_filtered_ratio_first df start_date end_date min_ratio
              = df_filtered df start_date end_date min_ratio).
  { rewrite df_filtered_ratio_first_filter, df_filtered_filter. apply filter_comm. }
  split; [exact E|]. intros r. rewrite E. tauto.
Qed.

(** C7. For a fixed table and date range and thresholds
    [1.0 <= r1 <= r2 <= 5.0], the view for [r2] has at most as many rows as
    the view for [r1]. *)
Theorem filter_monotone
    (df : DataFrame) (start_date end_date : date) (r1 r2 : float) :
  Float64.le 1 r1 -> Float64.le r1 r2 -> Float64.le r2 5 ->
  List.length (df_filtered df start_date end_date r2)
  <= List.length (df_filtered df start_date end_date r1).
Proof.
  intros _ H12 _. rewrite !df_filtered_filter.
  apply filter_length_le. intros r. unfold at_least, Float64.geb.
  apply Float64Facts.leb_trans. exact H12.
Qed.

Lemma filter_monotone_witness :
  List.length (df_filtered two_days (mkdate 2024 1 1) (mkdate 2024 1 2) 4)
  <= List.length (df_filtered two_days (mkdate 2024 1 1) (mkdate 2024 1 2) 1).
Proof.
  apply filter_monotone; reflexivity.
Defined.

(** ** The aggregates *)

Lemma length_loc_count (p : Row -> bool) (df : DataFrame) :
  List.length (loc df (map p df)) = count p df.
Proof.
  induction df as [|r df IH]; cbn; [reflexivity|].
  destruct (p r); cbn; now rewrite IH.
Qed.

Lemma risk_days_count (v : DataFrame) :
  risk_days v = count (fun r => (4 <? Patients_Per_Nurse r)%float) v.
Proof.
  unfold risk_days, column. rewrite map_map.
  apply (length_loc_count (fun r => Float64.gtb (Patients_Per_Nurse r) 4)).
Qed.

(** C2, as the code has it.  Over any view the three averages are the mean
    of their column rounded to 1, 1 and 2 decimals, and [risk_days] counts
    the rows whose ratio is above the fixed 4.0, whatever [min_ratio] was; a
    column with no number in it has the mean NaN.  Over a view of one record
    the averages are that record's values rounded to 1, 1 and 2 decimals
    (not the values themselves), each value [x] being read as [0.0 + x],
    which is [x] except that a negative zero becomes zero; and [risk_days]
    is 1 or 0 as the record's ratio is above 4.0 or not.  Three views pin
    the numbers down: the single record of ratio 4.3125 shows 4.31; the two
    days show 45.0 patients; the eight days, whose ratios NumPy adds up to
    19.4, show the average ratio 2.42. *)
Theorem aggregates_of_view :
  (forall v : DataFrame,
      avg_patients v = Float64.round (Float64.mean (map Patient_Count v)) 1
      /\ avg_nurses v = Float64.round (Float64.mean (map Estimated_Nurse_Count v)) 1
      /\ avg_ratio v = Float64.round (Float64.mean (map Patients_Per_Nurse v)) 2
      /\ risk_days v = count (fun r => (4 <? Patients_Per_Nurse r)%float) v)
  /\ (forall xs : list float,
        (forall x, In x xs -> is_nan x = true) -> Float64.mean xs = nan)
  /\ (forall r : Row,
        avg_patients [r] = Float64.round (0 + Patient_Count r) 1
        /\ avg_nurses [r] = Float64.round (0 + Estimated_Nurse_Count r) 1
        /\ avg_ratio [r] = Float64.round (0 + Patients_Per_Nurse r) 2
        /\ risk_days [r] = if (4 <? Patients_Per_Nurse r)%float then 1 else 0)
  /\ (forall x : float,
        (0 + x)%float = x \/ (x = neg_zero /\ (0 + x)%float = 0%float))
  /\ avg_ratio [one_day] = 0x1.13d70a3d70a3dp+2%float
  /\ avg_patients two_days = 45%float
  /\ Float64.sum (map Patients_Per_Nurse eight_days) = 0x1.3666666666666p+4%float
  /\ avg_ratio eight_days = 0x1.35c28f5c28f5cp+1%float.
Proof.
  split; [|split; [|split; [|split]]].
  - intros v. repeat split; try reflexivity. apply risk_days_count.
  - exact Float64Facts.mean_of_no_number.
  - intros r. unfold avg_patients, avg_nurses, avg_ratio, column. cbn [map].
    rewrite !Float64Facts.mean_singleton. repeat split.
    rewrite risk_days_count. cbn. now destruct (4 <? Patients_Per_Nurse r)%float.
  - exact Float64Facts.zero_add.
  - repeat split; vm_compute; reflexivity.
Qed.

(** C2 as stated fails: over the single record [one_day], whose ratio is
    4.3125, the displayed average ratio is below the record's own ratio. *)
Lemma single_record_average_is_rounded :
  Patients_Per_Nurse one_day = 4.3125%float
  /\ avg_ratio [one_day] = Float64.round 4.3125 2
  /\ (avg_ratio [one_day] <? Patients_Per_Nurse one_day)%float = true.
Proof. repeat split; vm_compute; reflexivity. Qed.

(** C9. The two-day table filtered from 2024-01-01 to 2024-01-02 with
    [min_ratio = 1.0] keeps both records, and the aggregates are 45.0, 15.0,
    3.5 and one risk day. *)
Theorem two_days_scenario :
  df_filtered two_days (mkdate 2024 1 1) (mkdate 2024 1 2) 1 = two_days
  /\ aggregate (df_filtered two_days (mkdate 2024 1 1) (mkdate 2024 1 2) 1)
     = {| agg_avg_patients := 45; agg_avg_nurses := 15;
          agg_avg_ratio := 3.5; agg_risk_days := 1 |}.
Proof. split; vm_compute; reflexivity. Qed.

(** ** The loader's date parsing *)

Module DateParserFacts.

Import DateParser DateText.
Local Open Scope Z_scope.

Ltac digit_cases k :=
  assert (k = 0 \/ k = 1 \/ k = 2 \/ k = 3 \/ k = 4 \/ k = 5 \/ k = 6
          \/ k = 7 \/ k = 8 \/ k = 9) as Hcases by lia;
  repeat (destruct Hcases as [Hcases | Hcases]; [subst k; reflexivity|]);
  subst k; reflexivity.

Lemma digit_digit_char k : 0 <= k <= 9 -> digit (digit_char k) = Some k.
Proof. intros H. digit_cases k. Qed.

Lemma digit_char_not_slash k : 0 <= k <= 9 -> Ascii.eqb (digit_char k) "/" = false.
Proof. intros H. digit_cases k. Qed.

Lemma div10_digit n : 0 <= n < 100 -> 0 <= n / 10 <= 9.
Proof.
  intros H. split; [apply Z.div_pos; lia | apply Z.lt_succ_r, Z.div_lt_upper_bound; lia].
Qed.

Lemma mod10_digit n : 0 <= n mod 10 <= 9.
Proof. pose proof (Z.mod_pos_bound n 10). lia. Qed.

Lemma digits_two_digits n acc :
  0 <= n < 100 -> digits (two_digits n) acc = Some (100 * acc + n).
Proof.
  intros H. unfold two_digits. cbn [digits].
  rewrite (digit_digit_char (div10_digit H)), (digit_digit_char (mod10_digit n)).
  f_equal. pose proof (Z.div_mod n 10 ltac:(lia)). lia.
Qed.

Lemma number_two_digits n : 0 <= n < 100 -> number (two_digits n) = Some n.
Proof. intros H. unfold number. cbn [two_digits]. now rewrite digits_two_digits. Qed.

Lemma digits_app s1 s2 acc :
  digits (s1 ++ s2) acc
  = match digits s1 acc with Some a => digits s2 a | None => None end.
Proof.
  revert acc. induction s1 as [|c s1 IH]; intros acc; cbn; [reflexivity|].
  destruct (digit c); [apply IH | reflexivity].
Qed.

Lemma number_four_digits n : 0 <= n < 10000 -> number (four_digits n) = Some n.
Proof.
  intros H. unfold number, four_digits. cbn [two_digits append].
  change (String (digit_char (n / 100 / 10))
            (String (digit_char ((n / 100) mod 10)) (two_digits (n mod 100))))
    with (two_digits (n / 100) ++ two_digits (n mod 100))%string.
  rewrite digits_app, !digits_two_digits.
  - f_equal. pose proof (Z.div_mod n 100 ltac:(lia)). lia.
  - apply Z.mod_pos_bound. lia.
  - split; [apply Z.div_pos; lia | apply Z.div_lt_upper_bound; lia].
Qed.

Lemma length_four_digits n : String.length (four_digits n) = 4%nat.
Proof. reflexivity. Qed.

(** Day first is a preference, not a rule: a second number that cannot be a
    month makes the first one the month; a day that does not exist is
    refused. *)
Example to_datetime_examples :
  to_datetime true "13/01/2024" = inr (midnight 2024 1 13)
  /\ to_datetime true "01/13/2024" = inr (midnight 2024 1 13)
  /\ to_datetime true "31/02/2024" = inl ValueError.
Proof. repeat split; reflexivity. Qed.

(** Cutting a [DD/MM/YYYY] text at its slashes gives back the three
    numbers' texts. *)
Lemma split_on_ddmmyyyy d m y :
  0 <= d < 100 -> 0 <= m < 100 -> 0 <= y < 10000 ->
  split_on "/" (two_digits d ++ "/" ++ two_digits m ++ "/" ++ four_digits y)
  = [two_digits d; two_digits m; four_digits y].
Proof.
  intros Hd Hm Hy.
  assert (Hy1 : 0 <= y / 100 < 100)
    by (split; [apply Z.div_pos; lia | apply Z.div_lt_upper_bound; lia]).
  assert (Hy2 : 0 <= y mod 100 < 100) by (apply Z.mod_pos_bound; lia).
  unfold four_digits, two_digits. cbn [append split_on].
  rewrite !digit_char_not_slash by (try apply mod10_digit; apply div10_digit; lia).
  cbn. reflexivity.
Qed.

Lemma valid_date_bounds d :
  valid_date d = true -> 1 <= month d <= 12 /\ 1 <= day d <= 31.
Proof.
  unfold valid_date, days_in_month. rewrite !andb_true_iff, !Z.leb_le.
  intros [[[H1 H2] H3] H4]. repeat split; try assumption.
  destruct (month d =? 2); [destruct (is_leap (year d))|];
    [lia | lia |].
  destruct ((month d =? 4) || (month d =? 6) || (month d =? 9) || (month d =? 11)); lia.
Qed.

Lemma in_bounds_year d : in_bounds d = true -> 1677 <= year d <= 2262.
Proof.
  unfold in_bounds. rewrite andb_true_iff, !date_leb_le.
  unfold date_le, date_lt. cbn [year month day].
  intros [[H1 | <-] [H2 | ->]]; cbn [year]; lia.
Qed.

(** With [dayfirst=True] a valid day written [DD/MM/YYYY] is read back as
    that day: the first number is the day, the second the month. *)
Lemma to_datetime_ddmmyyyy d :
  valid_date d = true -> in_bounds d = true ->
  to_datetime true (ddmmyyyy d) = inr (mkts d 0).
Proof.
  intros Hv Hb.
  destruct (valid_date_bounds d Hv) as [Hm Hd].
  pose proof (in_bounds_year d Hb) as Hy.
  unfold to_datetime, ddmmyyyy.
  rewrite split_on_ddmmyyyy by lia.
  rewrite !number_two_digits, number_four_digits by lia.
  rewrite length_four_digits. cbn [Nat.eqb negb].
  unfold resolve_ymd.
  replace (month d <=? 12) with true by (symmetry; apply Z.leb_le; lia).
  cbn [andb]. rewrite orb_true_r.
  replace {| year := year d; month := month d; day := day d |} with d
    by (now destruct d).
  rewrite Hv, Hb. reflexivity.
Qed.

Lemma fields_ddmmyyyy d :
  valid_date d = true -> in_bounds d = true ->
  fields (ddmmyyyy d) = Some (day d, month d, year d).
Proof.
  intros Hv Hb.
  destruct (valid_date_bounds d Hv) as [Hm Hd].
  pose proof (in_bounds_year d Hb) as Hy.
  unfold fields, ddmmyyyy.
  rewrite split_on_ddmmyyyy by lia.
  rewrite !number_two_digits, number_four_digits by lia.
  rewrite length_four_digits. reflexivity.
Qed.

(** A valid day written [DD/MM/YYYY] makes pandas infer the day-first
    order. *)
Lemma infer_order_ddmmyyyy d :
  valid_date d = true -> in_bounds d = true ->
  infer_order true (ddmmyyyy d) = Some true.
Proof.
  intros Hv Hb.
  destruct (valid_date_bounds d Hv) as [Hm Hd].
  unfold infer_order. rewrite fields_ddmmyyyy by assumption.
  replace (month d <=? 12) with true by (symmetry; apply Z.leb_le; lia).
  cbn [andb]. rewrite orb_true_r.
  replace {| year := year d; month := month d; day := day d |} with d
    by (now destruct d).
  now rewrite Hv.
Qed.

Lemma read_as_ddmmyyyy d :
  valid_date d = true -> in_bounds d = true ->
  read_as true (ddmmyyyy d) = inr (mkts d 0).
Proof.
  intros Hv Hb. unfold read_as. rewrite fields_ddmmyyyy by assumption.
  replace {| year := year d; month := month d; day := day d |} with d
    by (now destruct d).
  now rewrite Hv, Hb.
Qed.

Lemma read_column_csv_rows (rows : DataFrame) :
  Forall loadable rows -> read_column true (map csv_row rows) = inr rows.
Proof.
  induction 1 as [|r rows [Hv [Hb Ht]] _ IH]; cbn [map read_column]; [reflexivity|].
  cbn [csv_row raw_D_O_A raw_Patient_Count raw_Estimated_Nurse_Count
       raw_Patients_Per_Nurse raw_Occupancy_Rate].
  rewrite read_as_ddmmyyyy, IH by assumption.
  do 2 f_equal. destruct r as [[dd tt] ? ? ? ?]. cbn in *. now subst.
Qed.

Lemma parse_dates_csv_rows (rows : DataFrame) :
  Forall loadable rows -> parse_dates (map csv_row rows) = inr rows.
Proof.
  intros H. destruct rows as [|r rows]; [reflexivity|].
  unfold parse_dates. cbn [map csv_row raw_D_O_A].
  inversion H as [|? ? [Hv [Hb _]] _]; subst.
  rewrite infer_order_ddmmyyyy by assumption.
  exact (read_column_csv_rows H).
Qed.

(** One cell on its own is read in the order inferred from it. *)
Lemma to_datetime_infer dayfirst s :
  to_datetime dayfirst s
  = match infer_order dayfirst s with
    | Some day_first => read_as day_first s
    | None => inl ValueError
    end.
Proof.
  unfold to_datetime, infer_order, read_as, fields, resolve_ymd.
  destruct (split_on "/" s) as [|fa [|fb [|fy [|? ?]]]]; try reflexivity.
  destruct (number fa) as [a|]; try reflexivity.
  destruct (number fb) as [b|]; try reflexivity.
  destruct (number fy) as [y|]; try reflexivity.
  destruct (String.length fy =? 4)%nat; try reflexivity. cbn [negb]. cbv zeta.
  destruct ((12 <? a) || (dayfirst && (b <=? 12))); cbv beta iota zeta;
    match goal with
    | |- context [valid_date ?d] => destruct (valid_date d) eqn:E
    end; cbv beta iota; rewrite ?E; reflexivity.
Qed.

(** The order comes from the first cell: after ["01/13/2024"], which can
    only be month first, ["02/03/2024"] is 3 February; after ["13/01/2024"],
    which can only be day first, ["01/13/2024"] is no day. *)
Example column_order_examples :
  parse_dates [ mkRawRow "01/13/2024" 1 1 1 1; mkRawRow "02/03/2024" 2 2 2 2 ]
  = inr [ mkRow (midnight 2024 1 13) 1 1 1 1; mkRow (midnight 2024 2 3) 2 2 2 2 ]
  /\ parse_dates [ mkRawRow "13/01/2024" 1 1 1 1; mkRawRow "01/13/2024" 2 2 2 2 ]
     = inl ValueError
  /\ parse_dates [ mkRawRow "01/02/2024" 1 1 1 1; mkRawRow "13/02/2024" 2 2 2 2 ]
     = inr [ mkRow (midnight 2024 2 1) 1 1 1 1; mkRow (midnight 2024 2 13) 2 2 2 2 ].
Proof. repeat split; reflexivity. Qed.

End DateParserFacts.

(** C8. The loader reads the date column day first: ["01/02/2024"] is
    1 February 2024 (month first it would be 2 January), every valid day
    written [DD/MM/YYYY] is read as day, month, year, and so a file written
    that way loads as the table it was written from. *)
Theorem loader_parses_day_first :
  DateParser.to_datetime true "01/02/2024" = inr (midnight 2024 2 1)
  /\ DateParser.to_datetime false "01/02/2024" = inr (midnight 2024 1 2)
  /\ (forall d : date,
        DateParser.valid_date d = true -> DateParser.in_bounds d = true ->
        DateParser.to_datetime true (DateText.ddmmyyyy d) = inr (mkts d 0))
  /\ (forall rows : DataFrame,
        Forall loadable rows ->
        load_data (FileContent (map csv_row rows)) = inr rows).
Proof.
  split; [reflexivity|]. split; [reflexivity|]. split.
  - exact DateParserFacts.to_datetime_ddmmyyyy.
  - intros rows H. cbn [load_data read_csv].
    now apply DateParserFacts.parse_dates_csv_rows.
Qed.

Lemma loader_parses_day_first_witness :
  DateParser.to_datetime true (DateText.ddmmyyyy (mkdate 2024 2 29))
  = inr (mkts (mkdate 2024 2 29) 0)
  /\ load_data (FileContent (map csv_row two_days)) = inr two_days.
Proof.
  destruct loader_parses_day_first as [_ [_ [Hday Hfile]]]. split.
  - apply Hday; reflexivity.
  - apply Hfile. repeat constructor.
Defined.

(** ** The earliest and latest day of a column *)

Section SeriesFacts.

Lemma ts_leb_date a b : ts_leb a b = true -> date_le (ts_date a) (ts_date b).
Proof.
  unfold ts_leb. intros H. apply date_leb_le. unfold date_leb.
  destruct (date_compare (ts_date a) (ts_date b)); congruence.
Qed.

Lemma ts_leb_false_date a b : ts_leb a b = false -> date_le (ts_date b) (ts_date a).
Proof.
  unfold ts_leb. intros H. apply date_leb_le. unfold date_leb.
  rewrite (date_compare_antisym (ts_date a) (ts_date b)).
  destruct (date_compare (ts_date a) (ts_date b)); cbn; congruence.
Qed.

Lemma fold_min_spec (rest : list Timestamp) (t : Timestamp) :
  let m := fold_left (fun m x => if ts_leb x m then x else m) rest t in
  In m (t :: rest) /\ forall x, In x (t :: rest) -> date_le (ts_date m) (ts_date x).
Proof.
  revert t. induction rest as [|x rest IH]; intros t; cbn [fold_left].
  - split; [now left|]. intros x [<-|[]]. apply date_le_refl.
  - specialize (IH (if ts_leb x t then x else t)). cbv zeta in IH.
    destruct IH as [Hin Hle]. split.
    + destruct Hin as [E|Hin]; [|now right; right].
      rewrite <- E. destruct (ts_leb x t); [right; now left | now left].
    + assert (Hm : date_le (ts_date (fold_left (fun m x0 => if ts_leb x0 m then x0 else m)
                                       rest (if ts_leb x t then x else t)))
                           (ts_date (if ts_leb x t then x else t)))
        by (apply Hle; now left).
      intros y [<-|[<-|Hy]].
      * eapply date_le_trans; [exact Hm|].
        destruct (ts_leb x t) eqn:E; [now apply ts_leb_date | apply date_le_refl].
      * eapply date_le_trans; [exact Hm|].
        destruct (ts_leb x t) eqn:E; [apply date_le_refl | now apply ts_leb_false_date].
      * apply Hle. now right.
Qed.

Lemma fold_max_spec (rest : list Timestamp) (t : Timestamp) :
  let m := fold_left (fun m x => if ts_leb m x then x else m) rest t in
  In m (t :: rest) /\ forall x, In x (t :: rest) -> date_le (ts_date x) (ts_date m).
Proof.
  revert t. induction rest as [|x rest IH]; intros t; cbn [fold_left].
  - split; [now left|]. intros x [<-|[]]. apply date_le_refl.
  - specialize (IH (if ts_leb t x then x else t)). cbv zeta in IH.
    destruct IH as [Hin Hle]. split.
    + destruct Hin as [E|Hin]; [|now right; right].
      rewrite <- E. destruct (ts_leb t x); [right; now left | now left].
    + assert (Hm : date_le (ts_date (if ts_leb t x then x else t))
                           (ts_date (fold_left (fun m x0 => if ts_leb m x0 then x0 else m)
                                       rest (if ts_leb t x then x else t))))
        by (apply Hle; now left).
      intros y [<-|[<-|Hy]].
      * eapply date_le_trans; [|exact Hm].
        destruct (ts_leb t x) eqn:E; [now apply ts_leb_date | apply date_le_refl].
      * eapply date_le_trans; [|exact Hm].
        destruct (ts_leb t x) eqn:E; [apply date_le_refl | now apply ts_leb_false_date].
      * apply Hle. now right.
Qed.

Lemma series_min_earliest (df : DataFrame) (t : Timestamp) :
  series_min (column D_O_A df) = Some t -> earliest_day df (dt_date t).
Proof.
  unfold series_min, column, earliest_day, record_date, dt_date.
  destruct df as [|r df]; cbn [map]; [discriminate|].
  intros [= <-].
  destruct (fold_min_spec (map D_O_A df) (D_O_A r)) as [Hin Hle].
  change (D_O_A r :: map D_O_A df) with (map D_O_A (r :: df)) in Hin, Hle.
  split.
  - apply in_map_iff in Hin. destruct Hin as [r' [E Hr']].
    exists r'. split; [assumption | now rewrite E].
  - intros r' Hr'. apply Hle. now apply in_map.
Qed.

Lemma series_max_latest (df : DataFrame) (t : Timestamp) :
  series_max (column D_O_A df) = Some t -> latest_day df (dt_date t).
Proof.
  unfold series_max, column, latest_day, record_date, dt_date.
  destruct df as [|r df]; cbn [map]; [discriminate|].
  intros [= <-].
  destruct (fold_max_spec (map D_O_A df) (D_O_A r)) as [Hin Hle].
  change (D_O_A r :: map D_O_A df) with (map D_O_A (r :: df)) in Hin, Hle.
  split.
  - apply in_map_iff in Hin. destruct Hin as [r' [E Hr']].
    exists r'. split; [assumption | now rewrite E].
  - intros r' Hr'. apply Hle. now apply in_map.
Qed.

Lemma date_answer_in_range value lo hi picked :
  date_le lo value -> date_le value hi ->
  date_le lo (date_answer value lo hi picked)
  /\ date_le (date_answer value lo hi picked) hi.
Proof.
  intros H1 H2. unfold date_answer. destruct picked as [d|]; [|now split].
  destruct (date_leb lo d && date_leb d hi) eqn:E; [|now split].
  apply andb_true_iff in E. now rewrite !date_leb_le in E.
Qed.

Lemma slider_answer_in_range lo hi value picked :
  Float64.le lo value -> Float64.le value hi ->
  Float64.le lo (slider_answer lo hi value picked)
  /\ Float64.le (slider_answer lo hi value picked) hi.
Proof.
  intros H1 H2. unfold slider_answer. destruct picked as [x|]; [|now split].
  destruct ((lo <=? x)%float && (x <=? hi)%float) eqn:E; [|now split].
  apply andb_true_iff in E. exact E.
Qed.

End SeriesFacts.

(** ** More on the binary64 order *)

Module Float64Order.

Local Open Scope Z_scope.

Ltac compare_cases :=
  change (Pos.compare_cont Eq) with Pos.compare;
  repeat match goal with
         | |- context [Z.compare ?x ?y] => destruct (Z.compare_spec x y)
         | |- context [Pos.compare ?x ?y] => destruct (Pos.compare_spec x y)
         end.

Lemma SFltb_leb_trans a b c :
  SFltb a b = true -> SFleb b c = true -> SFltb a c = true.
Proof.
  unfold SFltb, SFleb.
  destruct a as [sa|sa| |sa ma ea], b as [sb|sb| |sb mb eb], c as [sc|sc| |sc mc ec];
    cbn; try discriminate; try reflexivity;
    repeat match goal with s : bool |- _ => destruct s end;
    cbn; try discriminate; try reflexivity;
    compare_cases; cbn; try discriminate; try reflexivity; intros _ _; exfalso; lia.
Qed.

(** Two numbers, neither of them NaN, are comparable. *)
Lemma SFleb_false_ltb a b :
  SFleb a a = true -> SFleb b b = true -> SFleb a b = false -> SFltb b a = true.
Proof.
  unfold SFltb, SFleb.
  destruct a as [sa|sa| |sa ma ea], b as [sb|sb| |sb mb eb];
    cbn; try discriminate; try reflexivity;
    repeat match goal with s : bool |- _ => destruct s end;
    cbn; try discriminate; try reflexivity;
    intros _ _; compare_cases; cbn; try discriminate; try reflexivity;
    intros _; exfalso; lia.
Qed.

Lemma SFleb_refl_l a b : SFleb a b = true -> SFleb a a = true.
Proof.
  unfold SFleb.
  destruct a as [sa|sa| |sa ma ea], b as [sb|sb| |sb mb eb];
    cbn; try discriminate; try reflexivity;
    repeat match goal with s : bool |- _ => destruct s end;
    cbn; try reflexivity; intros _;
    rewrite Z.compare_refl; change (Pos.compare_cont Eq) with Pos.compare;
    rewrite Pos.compare_refl; reflexivity.
Qed.

Lemma SFleb_refl_r a b : SFleb a b = true -> SFleb b b = true.
Proof.
  unfold SFleb.
  destruct a as [sa|sa| |sa ma ea], b as [sb|sb| |sb mb eb];
    cbn; try discriminate; try reflexivity;
    repeat match goal with s : bool |- _ => destruct s end;
    cbn; try reflexivity; intros _;
    rewrite Z.compare_refl; change (Pos.compare_cont Eq) with Pos.compare;
    rewrite Pos.compare_refl; reflexivity.
Qed.

(** At least one and not above one is one. *)
Lemma SFleb_not_ltb_one b :
  SFleb Float64.SFone64 b = true -> SFltb Float64.SFone64 b = false ->
  b = Float64.SFone64.
Proof.
  unfold SFltb, SFleb, Float64.SFone64, SFcompare.
  destruct b as [sb|sb| |sb mb eb]; try discriminate;
    try (destruct sb; discriminate).
  destruct sb; try discriminate.
  change (Pos.compare_cont Eq) with Pos.compare.
  destruct (Z.compare_spec (-52) eb); try discriminate.
  destruct (Pos.compare_spec 4503599627370496 mb); try discriminate.
  intros _ _. now subst.
Qed.

Lemma ltb_leb_trans (x y z : float) :
  (x <? y)%float = true -> (y <=? z)%float = true -> (x <? z)%float = true.
Proof. rewrite !ltb_spec, leb_spec. apply SFltb_leb_trans. Qed.

(** NaN is at least nothing. *)
Lemma leb_nan_r (x y : float) : is_nan y = true -> (x <=? y)%float = false.
Proof.
  intros H. rewrite leb_spec. unfold Prim2SF at 2. rewrite H.
  unfold SFleb. now destruct (Prim2SF x).
Qed.

Lemma leb_false_ltb (x y z : float) :
  (x <=? x)%float = true -> (z <=? y)%float = true ->
  (x <=? y)%float = false -> (y <? x)%float = true.
Proof.
  rewrite !leb_spec, ltb_spec. intros Hx Hy. apply SFleb_false_ltb; [exact Hx|].
  eapply SFleb_refl_r. exact Hy.
Qed.

Lemma leb_not_ltb_one (x : float) :
  (1 <=? x)%float = true -> (1 <? x)%float = false -> x = 1%float.
Proof.
  rewrite leb_spec, ltb_spec. change (Prim2SF 1) with Float64.SFone64.
  intros H1 H2. apply Prim2SF_inj. change (Prim2SF 1) with Float64.SFone64.
  now apply SFleb_not_ltb_one.
Qed.

End Float64Order.

(** ** More on the filter and the aggregates *)

Section FilterMore.

Lemma date_lt_not_le a b : date_lt a b -> date_le b a -> False.
Proof.
  unfold date_le, date_lt. intros H [H' | ->]; lia.
Qed.

Lemma filter_nothing (A : Type) (p : A -> bool) (l : list A) :
  (forall x, In x l -> p x = false) -> filter p l = [].
Proof.
  induction l as [|x l IH]; cbn; intros H; [reflexivity|].
  rewrite (H x) by now left. apply IH. intros y Hy. apply H. now right.
Qed.

Lemma filter_everything (A : Type) (p : A -> bool) (l : list A) :
  (forall x, In x l -> p x = true) -> filter p l = l.
Proof.
  induction l as [|x l IH]; cbn; intros H; [reflexivity|].
  rewrite (H x) by now left. f_equal. apply IH. intros y Hy. apply H. now right.
Qed.

Lemma count_le_length (A : Type) (p : A -> bool) (l : list A) :
  count p l <= List.length l.
Proof. induction l as [|x l IH]; cbn; [lia|]. destruct (p x); lia. Qed.

Lemma count_everything (A : Type) (p : A -> bool) (l : list A) :
  (forall x, In x l -> p x = true) -> count p l = List.length l.
Proof.
  induction l as [|x l IH]; cbn; intros H; [reflexivity|].
  rewrite (H x) by now left. f_equal. apply IH. intros y Hy. apply H. now right.
Qed.

Lemma df_filtered_In df s e m r :
  In r (df_filtered df s e m)
  <-> In r df /\ in_range s e r = true /\ at_least m r = true.
Proof.
  rewrite df_filtered_filter, !filter_In. tauto.
Qed.

(** X1. A row whose ratio cell is missing (NaN) is in no view, whatever the
    dates and the threshold: the comparison with [min_ratio] is false for
    it. *)
Theorem missing_ratio_is_never_shown
    (df : DataFrame) (start_date end_date : date) (min_ratio : float) (r : Row) :
  In r (df_filtered df start_date end_date min_ratio) ->
  is_nan (Patients_Per_Nurse r) = false.
Proof.
  intros H. apply df_filtered_In in H. destruct H as [_ [_ H]].
  unfold at_least, Float64.geb in H.
  destruct (is_nan (Patients_Per_Nurse r)) eqn:E; [|reflexivity].
  rewrite (Float64Order.leb_nan_r min_ratio _ E) in H. discriminate.
Qed.

Lemma missing_ratio_is_never_shown_witness :
  is_nan (Patients_Per_Nurse one_day) = false.
Proof.
  apply (@missing_ratio_is_never_shown [one_day] (mkdate 2024 1 1) (mkdate 2024 1 1) 1).
  left. reflexivity.
Defined.

(** X2. On a date range whose start is after its end the filter keeps
    nothing: without the guard of the sidebar the page would show the
    no-data notice of an empty view. *)
Theorem inverted_range_selects_nothing
    (df : DataFrame) (start_date end_date : date) (min_ratio : float) :
  date_lt end_date start_date ->
  df_filtered df start_date end_date min_ratio = [].
Proof.
  intros Hlt. rewrite df_filtered_filter.
  rewrite (@filter_nothing _ (in_range start_date end_date) df); [reflexivity|].
  intros r _. unfold in_range.
  destruct (date_geb (dt_date (D_O_A r)) start_date) eqn:E1; [|reflexivity].
  destruct (date_leb (dt_date (D_O_A r)) end_date) eqn:E2; [|reflexivity].
  exfalso. apply date_geb_le in E1. apply date_leb_le in E2.
  exact (date_lt_not_le Hlt (date_le_trans E1 E2)).
Qed.

Lemma inverted_range_selects_nothing_witness :
  df_filtered two_days (mkdate 2024 1 2) (mkdate 2024 1 1) 1 = [].
Proof.
  apply inverted_range_selects_nothing. apply date_gtb_lt. reflexivity.
Defined.

(** X3. Narrowing composes: filtering a view again, with a date range inside
    the first one and a threshold at least the first one, gives the view the
    narrow parameters give on the whole table.  With the same parameters
    twice, filtering again changes nothing. *)
Theorem narrowing_a_view
    (df : DataFrame) (start1 end1 start2 end2 : date) (ratio1 ratio2 : float) :
  date_le start1 start2 -> date_le end2 end1 -> Float64.le ratio1 ratio2 ->
  df_filtered (df_filtered df start1 end1 ratio1) start2 end2 ratio2
  = df_filtered df start2 end2 ratio2.
Proof.
  intros Hs He Hr. rewrite !df_filtered_filter, !filter_filter_andb.
  apply filter_ext. intros r.
  destruct (in_range start2 end2 r) eqn:E2; [|now rewrite !andb_false_r].
  destruct (at_least ratio2 r) eqn:E3; [|now rewrite !andb_false_r].
  assert (E1 : in_range start1 end1 r = true).
  { unfold in_range in *. apply andb_true_iff in E2. destruct E2 as [Ha Hb].
    apply date_geb_le in Ha. apply date_leb_le in Hb.
    apply andb_true_iff. split.
    - apply date_geb_le. eapply date_le_trans; eassumption.
    - apply date_leb_le. eapply date_le_trans; eassumption. }
  assert (E0 : at_least ratio1 r = true).
  { unfold at_least, Float64.geb in *. exact (Float64Facts.leb_trans Hr E3). }
  now rewrite E0, E1.
Qed.

Lemma narrowing_a_view_witness :
  df_filtered (df_filtered two_days (mkdate 2024 1 1) (mkdate 2024 1 2) 1)
              (mkdate 2024 1 1) (mkdate 2024 1 1) 4
  = df_filtered two_days (mkdate 2024 1 1) (mkdate 2024 1 1) 4.
Proof.
  apply narrowing_a_view;
    [apply date_leb_le; reflexivity | apply date_leb_le; reflexivity | reflexivity].
Defined.

(** X4. The card "High Risk Days" never counts more days than the view
    holds, and with the threshold above 4.0 every day of the view is a risk
    day: the count is the size of the view. *)
Theorem risk_days_against_the_view
    (df : DataFrame) (start_date end_date : date) (min_ratio : float) :
  risk_days (df_filtered df start_date end_date min_ratio)
  <= List.length (df_filtered df start_date end_date min_ratio)
  /\ ((4 <? min_ratio)%float = true ->
      risk_days (df_filtered df start_date end_date min_ratio)
      = List.length (df_filtered df start_date end_date min_ratio)).
Proof.
  rewrite risk_days_count. split; [apply count_le_length|].
  intros H4. apply count_everything. intros r Hr.
  apply df_filtered_In in Hr. destruct Hr as [_ [_ Hr]].
  unfold at_least, Float64.geb in Hr.
  exact (Float64Order.ltb_leb_trans H4 Hr).
Qed.

Lemma risk_days_against_the_view_witness :
  risk_days (df_filtered two_days (mkdate 2024 1 1) (mkdate 2024 1 2) 4.5)
  = List.length (df_filtered two_days (mkdate 2024 1 1) (mkdate 2024 1 2) 4.5).
Proof.
  apply (risk_days_against_the_view two_days (mkdate 2024 1 1) (mkdate 2024 1 2) 4.5).
  reflexivity.
Defined.

Lemma in_range_full_span (df : DataFrame) (lo hi : date) :
  (forall r, In r df -> date_le lo (record_date r)) ->
  (forall r, In r df -> date_le (record_date r) hi) ->
  filter (in_range lo hi) df = df.
Proof.
  intros Hlo Hhi. apply filter_everything. intros r Hr. unfold in_range.
  apply andb_true_iff. split.
  - apply date_geb_le. now apply Hlo.
  - apply date_leb_le. now apply Hhi.
Qed.

(** X5. Over a date range that covers every day of the table, as the
    untouched date controls give, the date mask keeps every row: the view is
    the rows whose ratio is at least [min_ratio], and nothing else hides a
    row. *)
Theorem full_span_keeps_every_day
    (df : DataFrame) (lo hi : date) (min_ratio : float) :
  (forall r, In r df -> date_le lo (record_date r)) ->
  (forall r, In r df -> date_le (record_date r) hi) ->
  loc df (mask df lo hi) = df
  /\ df_filtered df lo hi min_ratio
     = loc df (map (fun x => Float64.geb x min_ratio) (column Patients_Per_Nurse df)).
Proof.
  intros Hlo Hhi. pose proof (in_range_full_span df Hlo Hhi) as E.
  split.
  - now rewrite mask_map, loc_map.
  - rewrite df_filtered_filter, E. unfold column. rewrite map_map.
    symmetry. apply (loc_map (at_least min_ratio)).
Qed.

Lemma full_span_keeps_every_day_witness :
  loc two_days (mask two_days (mkdate 2024 1 1) (mkdate 2024 1 2)) = two_days
  /\ df_filtered two_days (mkdate 2024 1 1) (mkdate 2024 1 2) 4
     = loc two_days (map (fun x => Float64.geb x 4) (column Patients_Per_Nurse two_days)).
Proof.
  apply full_span_keeps_every_day.
  - intros r [<-|[<-|[]]]; apply date_leb_le; reflexivity.
  - intros r [<-|[<-|[]]]; apply date_leb_le; reflexivity.
Defined.

(** X6. For a table with at least one row, [min_dt] and [max_dt] are the
    earliest and the latest day present in it, and [min_dt] is not after
    [max_dt]: the bounds handed to the two date controls are never in the
    wrong order. *)
Theorem date_span_of_the_table (r : Row) (rest : DataFrame) :
  exists tmin tmax : Timestamp,
    series_min (column D_O_A (r :: rest)) = Some tmin
    /\ series_max (column D_O_A (r :: rest)) = Some tmax
    /\ earliest_day (r :: rest) (dt_date tmin)
    /\ latest_day (r :: rest) (dt_date tmax)
    /\ date_le (dt_date tmin) (dt_date tmax).
Proof.
  destruct (series_min (column D_O_A (r :: rest))) as [tmin|] eqn:Emin;
    [|discriminate].
  destruct (series_max (column D_O_A (r :: rest))) as [tmax|] eqn:Emax;
    [|discriminate].
  exists tmin, tmax.
  pose proof (series_min_earliest _ Emin) as Hmin.
  pose proof (series_max_latest _ Emax) as Hmax.
  repeat split; try assumption; try apply Hmin; try apply Hmax.
  destruct Hmin as [_ Hmin]. destruct Hmax as [_ Hmax].
  eapply date_le_trans; [apply (Hmin r) | apply (Hmax r)]; now left.
Qed.

End FilterMore.

(** ** More on loading *)

Section LoadMore.

Lemma read_as_error day_first s e :
  DateParser.read_as day_first s = inl e ->
  e = ValueError \/ e = OutOfBoundsDatetime.
Proof.
  unfold DateParser.read_as.
  destruct (DateParser.fields s) as [[[a b] y]|]; [|intros [= <-]; now left].
  destruct (negb (DateParser.valid_date _)); [intros [= <-]; now left|].
  destruct (negb (DateParser.in_bounds _)); intros [= <-]; now right.
Qed.

Lemma read_column_error day_first rows e :
  read_column day_first rows = inl e -> e = ValueError \/ e = OutOfBoundsDatetime.
Proof.
  induction rows as [|r rows IH]; cbn; [discriminate|].
  destruct (DateParser.read_as day_first (raw_D_O_A r)) as [e'|t] eqn:E.
  - intros [= <-]. eapply read_as_error. exact E.
  - destruct (read_column day_first rows) as [e'|df]; [|discriminate].
    intros [= <-]. now apply IH.
Qed.

Lemma parse_dates_error rows e :
  parse_dates rows = inl e -> e = ValueError \/ e = OutOfBoundsDatetime.
Proof.
  unfold parse_dates. destruct rows as [|r rows]; [discriminate|].
  destruct (DateParser.infer_order true (raw_D_O_A r)) as [o|].
  - apply read_column_error.
  - intros [= <-]. now left.
Qed.

Lemma load_data_not_found fs : load_data fs = inl FileNotFoundError -> fs = FileAbsent.
Proof.
  destruct fs as [| |rows]; cbn; try reflexivity; try discriminate.
  intros H. apply parse_dates_error in H. destruct H; discriminate.
Qed.

End LoadMore.

(** ** Runs of the script *)

Section RunFacts.

Local Open Scope string_scope.

(** The part of a stuck computation to reason by cases on: the innermost
    scrutinee in head position. *)
Ltac find_scrutinee t :=
  lazymatch t with
  | (match ?x with _ => _ end) => find_in x
  | (?f _) => find_scrutinee f
  end
with find_in x :=
  match x with
  | _ => find_scrutinee x
  | _ => x
  end.

Ltac run_red H :=
  cbv beta iota zeta delta
    [bind st ret assign st_stop raise date_of date_value page globals app] in H.

Ltac run_split H :=
  lazymatch type of H with
  | ?T = _ => let x := find_scrutinee T in destruct x eqn:?
  end.

(** Follow a run down every branch of the script; each goal left has the
    run's end as an explicit outcome and state. *)
Ltac run_cases H :=
  unfold run, script, load_stage, sidebar, main, card, date_input, slider,
    px_scatter, initial_state in H;
  run_red H;
  repeat (run_split H; run_red H);
  inversion H; subst; clear H.

(** C4. In every run where the two date controls answer a start date
    after the end date, the run halts at the validation message: that
    message is the page's only one, and neither the mask nor the filtered
    view was ever computed, nor any card or chart drawn. *)
Theorem invalid_date_range_halts_before_filtering
    (fs : file_state) (ui : session) (o : outcome unit) (s : state)
    (start_date end_date : date) :
  run fs ui = (o, s) ->
  lookup "start_date" (globals s) = Some (VDate start_date) ->
  lookup "end_date" (globals s) = Some (VDate end_date) ->
  date_lt end_date start_date ->
  o = Stopped
  /\ filter is_message (page s) = [error "Start Date cannot be after End Date."]
  /\ lookup "mask" (globals s) = None
  /\ lookup "df_filtered" (globals s) = None
  /\ filter is_result (page s) = [].
Proof.
  intros Hrun Hs He Hlt. apply date_gtb_lt in Hlt.
  run_cases Hrun; cbn in Hs, He; try discriminate;
    injection Hs as <-; injection He as <-; try congruence.
  repeat split.
Qed.

Lemma invalid_date_range_halts_before_filtering_witness :
  fst (run (file_of two_days) dates_swapped) = Stopped
  /\ filter is_message (page (snd (run (file_of two_days) dates_swapped)))
     = [error "Start Date cannot be after End Date."]
  /\ lookup "mask" (globals (snd (run (file_of two_days) dates_swapped))) = None
  /\ lookup "df_filtered" (globals (snd (run (file_of two_days) dates_swapped))) = None
  /\ filter is_result (page (snd (run (file_of two_days) dates_swapped))) = [].
Proof.
  apply (@invalid_date_range_halts_before_filtering
           (file_of two_days) dates_swapped _ _ (mkdate 2024 1 2) (mkdate 2024 1 1)).
  - apply surjective_pairing.
  - reflexivity.
  - reflexivity.
  - apply date_gtb_lt. reflexivity.
Defined.

(** C3. In every run where the filtered view comes out empty, the run
    halts with [st.stop()], not with an exception, right after the
    no-data notice: the notice is the last element of the page, no metric
    card and no chart is drawn, and none of the four aggregates is
    computed. *)
Theorem empty_view_halts_with_notice
    (fs : file_state) (ui : session) (o : outcome unit) (s : state) :
  run fs ui = (o, s) ->
  lookup "df_filtered" (globals s) = Some (VFrame []) ->
  o = Stopped
  /\ last (page s) set_page_config
     = warning "No data found for these filters! Try lowering the Risk Filter."
  /\ filter is_result (page s) = []
  /\ lookup "avg_patients" (globals s) = None
  /\ lookup "avg_nurses" (globals s) = None
  /\ lookup "avg_ratio" (globals s) = None
  /\ lookup "risk_days" (globals s) = None.
Proof.
  intros Hrun Hv.
  run_cases Hrun; cbn in Hv; try discriminate;
    try (repeat split; fail).
  all: injection Hv as Hv; rewrite Hv in *; discriminate.
Qed.

Lemma empty_view_halts_with_notice_witness :
  fst (run (file_of calm_days) slider_at_five) = Stopped
  /\ last (page (snd (run (file_of calm_days) slider_at_five))) set_page_config
     = warning "No data found for these filters! Try lowering the Risk Filter."
  /\ filter is_result (page (snd (run (file_of calm_days) slider_at_five))) = []
  /\ lookup "avg_patients" (globals (snd (run (file_of calm_days) slider_at_five))) = None
  /\ lookup "avg_nurses" (globals (snd (run (file_of calm_days) slider_at_five))) = None
  /\ lookup "avg_ratio" (globals (snd (run (file_of calm_days) slider_at_five))) = None
  /\ lookup "risk_days" (globals (snd (run (file_of calm_days) slider_at_five))) = None.
Proof.
  apply (@empty_view_halts_with_notice (file_of calm_days) slider_at_five).
  - apply surjective_pairing.
  - reflexivity.
Defined.

(** C5, for a missing file.  When the file does not exist the run halts
    with [st.stop()] after the page set-up and one error message, whatever
    the controls hold: nothing is bound, nothing else is drawn. *)
Theorem missing_file_halts_with_one_message (ui : session) :
  run FileAbsent ui
  = (Stopped,
     {| page := [set_page_config; style_sheet;
                 error "⚠️ Error: 'Final_Dashboard_Data_v3.csv' not found."];
        globals := [] |}).
Proof. reflexivity. Qed.

(** C5 as stated fails for a file that exists and cannot be read: the
    exception is not the one the script catches, it escapes, and the page
    holds no message. *)
Lemma unreadable_file_is_not_caught :
  run FileUnreadable untouched
  = (Raised PermissionError,
     {| page := [set_page_config; style_sheet]; globals := [] |})
  /\ filter is_message (page (snd (run FileUnreadable untouched))) = [].
Proof. split; reflexivity. Qed.

(** C10. In every run that reaches the filter, the parameters it is given
    satisfy: [min_ratio] lies in [1.0, 5.0]; the start and the end date lie
    between the earliest and the latest day of the loaded table, and are
    those two days when the controls were left alone; and the start date is
    not after the end date. *)
Theorem filter_parameters_in_range
    (fs : file_state) (ui : session) (o : outcome unit) (s : state)
    (m : list bool) :
  run fs ui = (o, s) ->
  lookup "mask" (globals s) = Some (VMask m) ->
  exists (df : DataFrame) (start_date end_date lo hi : date) (min_ratio : float),
    load_data fs = inr df
    /\ lookup "start_date" (globals s) = Some (VDate start_date)
    /\ lookup "end_date" (globals s) = Some (VDate end_date)
    /\ lookup "min_ratio" (globals s) = Some (VFloat min_ratio)
    /\ m = mask df start_date end_date
    /\ lookup "df_filtered" (globals s)
       = Some (VFrame (df_filtered df start_date end_date min_ratio))
    /\ earliest_day df lo /\ latest_day df hi
    /\ date_le lo start_date /\ date_le start_date hi
    /\ date_le lo end_date /\ date_le end_date hi
    /\ (picked_start ui = None -> start_date = lo)
    /\ (picked_end ui = None -> end_date = hi)
    /\ date_le start_date end_date
    /\ Float64.le 1 min_ratio /\ Float64.le min_ratio 5.
Proof.
  intros Hrun Hm.
  run_cases Hrun; cbn in Hm; try discriminate; injection Hm as <-.
  all: match goal with
       | Hmin : series_min (column D_O_A ?df) = Some ?t,
         Hmax : series_max (column D_O_A ?df) = Some ?t',
         Hw : date_gtb _ _ || _ || _ = false,
         Hg : date_gtb ?sd ?ed = false |- _ =>
           exists df, sd, ed, (dt_date t), (dt_date t'),
             (slider_answer 1 5 1 (picked_ratio ui));
           apply orb_false_iff in Hw; destruct Hw as [Hw _];
           apply orb_false_iff in Hw; destruct Hw as [Hw _];
           rewrite date_gtb_leb in Hw, Hg;
           apply negb_false_iff in Hw, Hg;
           apply date_leb_le in Hw, Hg;
           pose proof (date_answer_in_range (picked_start ui)
                         (date_le_refl (dt_date t)) Hw) as [? ?];
           pose proof (date_answer_in_range (picked_end ui)
                         Hw (date_le_refl (dt_date t'))) as [? ?];
           pose proof (@slider_answer_in_range 1 5 1 (picked_ratio ui)
                         eq_refl eq_refl) as [? ?];
           pose proof (series_min_earliest df Hmin);
           pose proof (series_max_latest df Hmax)
       end.
  all: repeat match goal with |- _ /\ _ => split end; try assumption;
    try reflexivity; intros E; unfold date_answer; rewrite E; reflexivity.
Qed.

Lemma filter_parameters_in_range_witness :
  exists (df : DataFrame) (start_date end_date lo hi : date) (min_ratio : float),
    load_data (file_of two_days) = inr df
    /\ lookup "start_date" (globals (snd (run (file_of two_days) untouched)))
       = Some (VDate start_date)
    /\ lookup "end_date" (globals (snd (run (file_of two_days) untouched)))
       = Some (VDate end_date)
    /\ lookup "min_ratio" (globals (snd (run (file_of two_days) untouched)))
       = Some (VFloat min_ratio)
    /\ [true; true] = mask df start_date end_date
    /\ lookup "df_filtered" (globals (snd (run (file_of two_days) untouched)))
       = Some (VFrame (df_filtered df start_date end_date min_ratio))
    /\ earliest_day df lo /\ latest_day df hi
    /\ date_le lo start_date /\ date_le start_date hi
    /\ date_le lo end_date /\ date_le end_date hi
    /\ (picked_start untouched = None -> start_date = lo)
    /\ (picked_end untouched = None -> end_date = hi)
    /\ date_le start_date end_date
    /\ Float64.le 1 min_ratio /\ Float64.le min_ratio 5.
Proof.
  apply (@filter_parameters_in_range (file_of two_days) untouched
           (fst (run (file_of two_days) untouched))).
  - apply surjective_pairing.
  - reflexivity.
Defined.

(** X8. The message under the slider follows the threshold.  In every run
    that reads the slider, the first message of the page is "Showing only
    CRITICAL days." when [min_ratio >= 4.0], the warning that days below
    [min_ratio] are hidden when [1.0 < min_ratio < 4.0], and "Showing ALL
    data." in the one case left, [min_ratio] equal to 1.0. *)
Theorem sidebar_message_follows_the_threshold
    (fs : file_state) (ui : session) (o : outcome unit) (s : state)
    (min_ratio : float) :
  run fs ui = (o, s) ->
  lookup "min_ratio" (globals s) = Some (VFloat min_ratio) ->
  (Float64.le 4 min_ratio
   /\ hd_error (filter is_message (page s))
      = Some (error "Showing only CRITICAL days."))
  \/ ((1 <? min_ratio)%float = true /\ (min_ratio <? 4)%float = true
      /\ hd_error (filter is_message (page s)) = Some (warning_hiding_days min_ratio))
  \/ (min_ratio = 1%float
      /\ hd_error (filter is_message (page s)) = Some (info "Showing ALL data.")).
Proof.
  intros Hrun Hm.
  pose proof (@slider_answer_in_range 1 5 1 (picked_ratio ui) eq_refl eq_refl)
    as [Hone _].
  run_cases Hrun; cbn in Hm; try discriminate; injection Hm as <-.
  all: match goal with
       | H : Float64.geb _ 4 = true |- _ => left; split; [exact H | reflexivity]
       | H4 : Float64.geb _ 4 = false, H1 : Float64.gtb _ 1 = true |- _ =>
           right; left; split; [exact H1 | split; [|reflexivity]];
           exact (@Float64Order.leb_false_ltb 4 _ 1 eq_refl Hone H4)
       | H1 : Float64.gtb _ 1 = false |- _ =>
           right; right; split; [|reflexivity];
           exact (Float64Order.leb_not_ltb_one Hone H1)
       end.
Qed.

Lemma sidebar_message_follows_the_threshold_witness :
  (Float64.le 4 5
   /\ hd_error (filter is_message (page (snd (run (file_of calm_days) slider_at_five))))
      = Some (error "Showing only CRITICAL days."))
  \/ ((1 <? 5)%float = true /\ (5 <? 4)%float = true
      /\ hd_error (filter is_message (page (snd (run (file_of calm_days) slider_at_five))))
         = Some (warning_hiding_days 5))
  \/ (5%float = 1%float
      /\ hd_error (filter is_message (page (snd (run (file_of calm_days) slider_at_five))))
         = Some (info "Showing ALL data.")).
Proof.
  apply (@sidebar_message_follows_the_threshold
           (file_of calm_days) slider_at_five
           (fst (run (file_of calm_days) slider_at_five))).
  - apply surjective_pairing.
  - reflexivity.
Defined.

(** X9. A run that reaches the end of the script shows, in this order, the
    four metric cards and the three charts, all computed from the one
    filtered view the run has bound, and that view has at least one row: no
    card and no chart is ever drawn from an empty view.  The page ends with
    the methodology note. *)
Theorem completed_run_shows_the_view
    (fs : file_state) (ui : session) (s : state) :
  run fs ui = (Done tt, s) ->
  exists (r : Row) (rest : DataFrame),
    lookup "df_filtered" (globals s) = Some (VFrame (r :: rest))
    /\ filter is_result (page s)
       = [ metric_card "Avg Daily Patients" (card_float (avg_patients (r :: rest))) "";
           metric_card "Avg Nurse Staffing" (card_float (avg_nurses (r :: rest))) "";
           metric_card "Nurse-to-Patient Ratio" (card_one_to (avg_ratio (r :: rest))) "";
           metric_card "High Risk Days" (card_int (risk_days (r :: rest))) " Days";
           plotly_chart (fig_main (column D_O_A (r :: rest))
                                  (column Patient_Count (r :: rest))
                                  (column Estimated_Nurse_Count (r :: rest)));
           plotly_chart (fig_hist (r :: rest));
           plotly_chart (fig_scatter (r :: rest)) ]
    /\ lookup "avg_patients" (globals s) = Some (VFloat (avg_patients (r :: rest)))
    /\ lookup "avg_nurses" (globals s) = Some (VFloat (avg_nurses (r :: rest)))
    /\ lookup "avg_ratio" (globals s) = Some (VFloat (avg_ratio (r :: rest)))
    /\ lookup "risk_days" (globals s) = Some (VInt (risk_days (r :: rest)))
    /\ last (page s) set_page_config
       = expander "📝 Data Source & Methodology Note (Click to Expand)".
Proof.
  intros Hrun.
  run_cases Hrun.
  all: match goal with
       | H : (List.length ?v =? 0)%nat = false |- _ =>
           destruct v as [|r rest] eqn:Ev; [discriminate H|];
           exists r, rest; repeat split
       end.
Qed.

Lemma completed_run_shows_the_view_witness :
  exists (r : Row) (rest : DataFrame),
    lookup "df_filtered" (globals (snd (run (file_of two_days) untouched)))
    = Some (VFrame (r :: rest))
    /\ filter is_result (page (snd (run (file_of two_days) untouched)))
       = [ metric_card "Avg Daily Patients" (card_float (avg_patients (r :: rest))) "";
           metric_card "Avg Nurse Staffing" (card_float (avg_nurses (r :: rest))) "";
           metric_card "Nurse-to-Patient Ratio" (card_one_to (avg_ratio (r :: rest))) "";
           metric_card "High Risk Days" (card_int (risk_days (r :: rest))) " Days";
           plotly_chart (fig_main (column D_O_A (r :: rest))
                                  (column Patient_Count (r :: rest))
                                  (column Estimated_Nurse_Count (r :: rest)));
           plotly_chart (fig_hist (r :: rest));
           plotly_chart (fig_scatter (r :: rest)) ]
    /\ lookup "avg_patients" (globals (snd (run (file_of two_days) untouched)))
       = Some (VFloat (avg_patients (r :: rest)))
    /\ lookup "avg_nurses" (globals (snd (run (file_of two_days) untouched)))
       = Some (VFloat (avg_nurses (r :: rest)))
    /\ lookup "avg_ratio" (globals (snd (run (file_of two_days) untouched)))
       = Some (VFloat (avg_ratio (r :: rest)))
    /\ lookup "risk_days" (globals (snd (run (file_of two_days) untouched)))
       = Some (VInt (risk_days (r :: rest)))
    /\ last (page (snd (run (file_of two_days) untouched))) set_page_config
       = expander "📝 Data Source & Methodology Note (Click to Expand)".
Proof.
  apply (@completed_run_shows_the_view (file_of two_days) untouched
           (snd (run (file_of two_days) untouched))).
  vm_compute. reflexivity.
Defined.

(** X10. A run halts with [st.stop()] for three reasons only, each with its
    own message as the last element of the page: the file is missing; the
    start date is after the end date (then no view was computed); the view
    is empty. *)
Theorem halting_reasons (fs : file_state) (ui : session) (s : state) :
  run fs ui = (Stopped, s) ->
  (fs = FileAbsent
   /\ last (page s) set_page_config
      = error "⚠️ Error: 'Final_Dashboard_Data_v3.csv' not found.")
  \/ (exists start_date end_date : date,
        lookup "start_date" (globals s) = Some (VDate start_date)
        /\ lookup "end_date" (globals s) = Some (VDate end_date)
        /\ date_lt end_date start_date
        /\ lookup "df_filtered" (globals s) = None
        /\ last (page s) set_page_config
           = error "Start Date cannot be after End Date.")
  \/ (lookup "df_filtered" (globals s) = Some (VFrame [])
      /\ last (page s) set_page_config
         = warning "No data found for these filters! Try lowering the Risk Filter.").
Proof.
  intros Hrun.
  run_cases Hrun.
  - left. split; [|reflexivity]. now apply load_data_not_found.
  - right. left.
    match goal with
    | H : date_gtb ?sd ?ed = true |- _ =>
        exists sd, ed; apply date_gtb_lt in H; repeat split; assumption
    end.
  - right. right.
    match goal with
    | H : (List.length ?v =? 0)%nat = true |- _ =>
        destruct v eqn:Ev; [|discriminate H]
    end.
    split; reflexivity.
  - right. right.
    match goal with
    | H : (List.length ?v =? 0)%nat = true |- _ =>
        destruct v eqn:Ev; [|discriminate H]
    end.
    split; reflexivity.
  - right. right.
    match goal with
    | H : (List.length ?v =? 0)%nat = true |- _ =>
        destruct v eqn:Ev; [|discriminate H]
    end.
    split; reflexivity.
Qed.

Lemma halting_reasons_witness :
  (file_of two_days = FileAbsent
   /\ last (page (snd (run (file_of two_days) dates_swapped))) set_page_config
      = error "⚠️ Error: 'Final_Dashboard_Data_v3.csv' not found.")
  \/ (exists start_date end_date : date,
        lookup "start_date" (globals (snd (run (file_of two_days) dates_swapped)))
        = Some (VDate start_date)
        /\ lookup "end_date" (globals (snd (run (file_of two_days) dates_swapped)))
           = Some (VDate end_date)
        /\ date_lt end_date start_date
        /\ lookup "df_filtered" (globals (snd (run (file_of two_days) dates_swapped)))
           = None
        /\ last (page (snd (run (file_of two_days) dates_swapped))) set_page_config
           = error "Start Date cannot be after End Date.")
  \/ (lookup "df_filtered" (globals (snd (run (file_of two_days) dates_swapped)))
      = Some (VFrame [])
      /\ last (page (snd (run (file_of two_days) dates_swapped))) set_page_config
         = warning "No data found for these filters! Try lowering the Risk Filter.").
Proof.
  apply (@halting_reasons (file_of two_days) dates_swapped
           (snd (run (file_of two_days) dates_swapped))).
  vm_compute. reflexivity.
Defined.

(** X11. A patient count that is NaN or negative breaks the third chart.  In
    every run whose filtered view holds a row with such a count, the run
    ends with the [ValueError] of [px.scatter]: the four cards and the first
    two charts are on the page, the heading of the third chart is the last
    element, and the chart itself is never drawn. *)
Theorem bad_patient_count_breaks_the_scatter_chart
    (fs : file_state) (ui : session) (o : outcome unit) (s : state)
    (v : DataFrame) (r : Row) :
  run fs ui = (o, s) ->
  lookup "df_filtered" (globals s) = Some (VFrame v) ->
  In r v -> (0 <=? Patient_Count r)%float = false ->
  o = Raised ValueError
  /\ filter is_result (page s)
     = [ metric_card "Avg Daily Patients" (card_float (avg_patients v)) "";
         metric_card "Avg Nurse Staffing" (card_float (avg_nurses v)) "";
         metric_card "Nurse-to-Patient Ratio" (card_one_to (avg_ratio v)) "";
         metric_card "High Risk Days" (card_int (risk_days v)) " Days";
         plotly_chart (fig_main (column D_O_A v) (column Patient_Count v)
                                (column Estimated_Nurse_Count v));
         plotly_chart (fig_hist v) ]
  /\ last (page s) set_page_config = subheader "🌡️ Occupancy Heatmap".
Proof.
  intros Hrun Hv Hr Hbad.
  run_cases Hrun; cbn in Hv; try discriminate; injection Hv as Hv;
    rewrite Hv in *.
  all: try match goal with
           | H : (List.length ?w =? 0)%nat = true, Hin : In _ ?w |- _ =>
               destruct w; [destruct Hin | discriminate H]
           end.
  all: try match goal with
           | H : forallb _ (column Patient_Count ?w) = true,
             Hin : In ?x ?w, Hx : (0 <=? Patient_Count ?x)%float = false |- _ =>
               exfalso; rewrite forallb_forall in H;
               specialize (H (Patient_Count x) (in_map Patient_Count w x Hin));
               cbv beta in H; congruence
           end.
  all: repeat split.
Qed.

Lemma bad_patient_count_breaks_the_scatter_chart_witness :
  fst (run (file_of [minus_one_day]) untouched) = Raised ValueError
  /\ filter is_result (page (snd (run (file_of [minus_one_day]) untouched)))
     = [ metric_card "Avg Daily Patients" (card_float (avg_patients [minus_one_day])) "";
         metric_card "Avg Nurse Staffing" (card_float (avg_nurses [minus_one_day])) "";
         metric_card "Nurse-to-Patient Ratio"
                     (card_one_to (avg_ratio [minus_one_day])) "";
         metric_card "High Risk Days" (card_int (risk_days [minus_one_day])) " Days";
         plotly_chart (fig_main (column D_O_A [minus_one_day])
                                (column Patient_Count [minus_one_day])
                                (column Estimated_Nurse_Count [minus_one_day]));
         plotly_chart (fig_hist [minus_one_day]) ]
  /\ last (page (snd (run (file_of [minus_one_day]) untouched))) set_page_config
     = subheader "🌡️ Occupancy Heatmap".
Proof.
  apply (@bad_patient_count_breaks_the_scatter_chart
           (file_of [minus_one_day]) untouched
           (fst (run (file_of [minus_one_day]) untouched))
           (snd (run (file_of [minus_one_day]) untouched))
           [minus_one_day] minus_one_day).
  - apply surjective_pairing.
  - vm_compute. reflexivity.
  - left. reflexivity.
  - reflexivity.
Defined.

(** X12. Over a file written from a table of real days, with the two date
    controls left alone, a run filters by ratio only: the view it binds is
    the table's rows whose ratio is at least [min_ratio], in order, from
    every day of the table.  (At the default threshold 1.0 that is every row
    with a ratio of at least 1.0, although the sidebar then says "Showing ALL
    data.") *)
Theorem untouched_dates_filter_by_ratio_only
    (df v : DataFrame) (ui : session) (o : outcome unit) (s : state)
    (min_ratio : float) :
  Forall loadable df ->
  picked_start ui = None -> picked_end ui = None ->
  run (file_of df) ui = (o, s) ->
  lookup "min_ratio" (globals s) = Some (VFloat min_ratio) ->
  lookup "df_filtered" (globals s) = Some (VFrame v) ->
  v = loc df (map (fun x => Float64.geb x min_ratio) (column Patients_Per_Nurse df)).
Proof.
  intros Hdf Hps Hpe Hrun Hm Hv.
  assert (Hload : load_data (file_of df) = inr df).
  { unfold file_of. cbn [load_data read_csv].
    now apply DateParserFacts.parse_dates_csv_rows. }
  run_cases Hrun; cbn in Hm, Hv; try discriminate;
    injection Hm as <-; injection Hv as <-; injection Hload as <-.
  all: match goal with
       | Hmin : series_min (column D_O_A ?d) = Some ?t,
         Hmax : series_max (column D_O_A ?d) = Some ?t' |- _ =>
           unfold date_answer; rewrite Hps, Hpe;
           destruct (series_min_earliest _ Hmin) as [_ Hlo];
           destruct (series_max_latest _ Hmax) as [_ Hhi];
           rewrite df_filtered_filter, (in_range_full_span d Hlo Hhi);
           unfold column; rewrite map_map; symmetry;
           apply (loc_map (at_least _))
       end.
Qed.

Lemma untouched_dates_filter_by_ratio_only_witness :
  df_filtered two_days (mkdate 2024 1 1) (mkdate 2024 1 2) 5
  = loc two_days (map (fun x => Float64.geb x 5) (column Patients_Per_Nurse two_days)).
Proof.
  apply (@untouched_dates_filter_by_ratio_only
           two_days _ slider_at_five
           (fst (run (file_of two_days) slider_at_five))
           (snd (run (file_of two_days) slider_at_five))).
  - repeat constructor.
  - reflexivity.
  - reflexivity.
  - apply surjective_pairing.
  - vm_compute. reflexivity.
  - vm_compute. reflexivity.
Defined.

(** X13. A file with no row gets as far as the first date control.  The
    minimum and the maximum of the empty date column are [NaT], [min_dt] and
    [max_dt] are bound to it, and [st.date_input] raises [ValueError] on it:
    the run ends there, whatever the controls hold, with the sidebar heading
    on the page and no message, card or chart. *)
Theorem empty_table_stops_at_the_date_control (ui : session) :
  run (FileContent []) ui
  = (Raised ValueError,
     {| page := [ set_page_config; style_sheet; title "🏥 Control Panel";
                  markdown "Use these tools to filter the dashboard views.";
                  divider; subheader "📅 Date Range"; columns 2 ];
        globals := [ ("max_dt", VNaT); ("min_dt", VNaT); ("df", VFrame []) ] |}).
Proof. reflexivity. Qed.

End RunFacts.
